(** * RadonUlzer, convoy leader application: the driving state

    A shallow embedding of [lib/APPConvoyLeader/DrivingState.cpp] and of
    the properties its specification states about it.

    The driving state is a C++ object with a handful of members and a set
    of collaborators it reaches through singletons and interfaces (line
    sensors, differential drive, odometry, sound, LED, the outer state
    machine, the PID controller and the moving average filter).  The
    embedding keeps the members in a record, threads that record through
    a small state monad, and records every call made on a collaborator in
    a call trace, in program order.  What a collaborator answers during
    one tick is read from an environment record. *)

From Stdlib Require Import ZArith List Bool Lia.
Import ListNotations.
Local Open Scope Z_scope.

(** ** Machine integers *)

(** Conversion of an [int] value to [int16_t] (two's complement wrap). *)
Definition int16 (z : Z) : Z := (z + 32768) mod 65536 - 32768.

(** Conversion of an [int] value to [uint16_t]. *)
Definition uint16 (z : Z) : Z := z mod 65536.

(** Conversion of an [int] value to [uint8_t]. *)
Definition uint8 (z : Z) : Z := z mod 256.

(** Conversion to [uint32_t], as used by the millisecond clock. *)
Definition uint32 (z : Z) : Z := z mod 4294967296.

Definition is_int16 (z : Z) : Prop := -32768 <= z <= 32767.

Definition is_uint16b (z : Z) : bool := (0 <=? z) && (z <? 65536).

(** Arduino's [constrain(amt, low, high)] macro:
    [((amt)<(low)?(low):((amt)>(high)?(high):(amt)))]. *)
Definition constrain (amt low high : Z) : Z :=
  if amt <? low then low else if amt >? high then high else amt.

(** ** Data model *)

Inductive LineStatus : Type :=
| LINE_STATUS_FIND_START_LINE
| LINE_STATUS_START_LINE_DETECTED
| LINE_STATUS_FIND_END_LINE.

Inductive TrackStatus : Type :=
| TRACK_STATUS_ON_TRACK
| TRACK_STATUS_LOST
| TRACK_STATUS_FINISHED.

Definition LineStatus_eqb (a b : LineStatus) : bool :=
  match a, b with
  | LINE_STATUS_FIND_START_LINE, LINE_STATUS_FIND_START_LINE => true
  | LINE_STATUS_START_LINE_DETECTED, LINE_STATUS_START_LINE_DETECTED => true
  | LINE_STATUS_FIND_END_LINE, LINE_STATUS_FIND_END_LINE => true
  | _, _ => false
  end.

Definition TrackStatus_eqb (a b : TrackStatus) : bool :=
  match a, b with
  | TRACK_STATUS_ON_TRACK, TRACK_STATUS_ON_TRACK => true
  | TRACK_STATUS_LOST, TRACK_STATUS_LOST => true
  | TRACK_STATUS_FINISHED, TRACK_STATUS_FINISHED => true
  | _, _ => false
  end.

(** Position of a line status in the order of one lap attempt. *)
Definition lineRank (l : LineStatus) : Z :=
  match l with
  | LINE_STATUS_FIND_START_LINE => 0
  | LINE_STATUS_START_LINE_DETECTED => 1
  | LINE_STATUS_FIND_END_LINE => 2
  end.

(** Modelled from the spec: the class SimpleTimer (used for
    [m_observationTimer], [m_lapTime] and [m_pidProcessTime]) is not among
    the sources.  The spec describes the timers as monotonic
    countdown/duration trackers that are polled and never block: a timer
    is armed with a duration at the current clock value, and has elapsed
    once the clock has advanced by at least that duration.  The clock is
    the [uint32_t] millisecond counter, hence the wrap-around of the
    difference. *)
Module SimpleTimer.

Record t : Type := mk {
  isRunning : bool;
  duration : Z;
  startTimestamp : Z
}.

Definition init : t := mk false 0 0.

Definition start (d now : Z) : t := mk true d now.

Definition stop (tm : t) : t := mk false (duration tm) (startTimestamp tm).

Definition getCurrentDuration (tm : t) (now : Z) : Z :=
  uint32 (now - startTimestamp tm).

Definition isTimeout (tm : t) (now : Z) : bool :=
  isRunning tm && (duration tm <=? getCurrentDuration tm now).

(** Restarting arms the timer again, with the duration it has, at the
    current clock value. *)
Definition restart (tm : t) (now : Z) : t := mk true (duration tm) now.

End SimpleTimer.

(** The members of [DrivingState] that the class itself reads and writes.
    The two member objects [m_pidCtrl] and [m_posMovAvg] are instances of
    classes that are not among the sources; their calls appear in the
    call trace and their answers in the environment. *)
Record DrivingState : Type := mkDrivingState {
  m_observationTimer : SimpleTimer.t;
  m_lapTime : SimpleTimer.t;
  m_pidProcessTime : SimpleTimer.t;
  m_topSpeed : Z;                (* int16_t, [steps/s] *)
  m_lineStatus : LineStatus;
  m_trackStatus : TrackStatus;
  m_startEndLineDebounce : Z     (* uint8_t *)
}.

Definition set_observationTimer (v : SimpleTimer.t) (s : DrivingState) :=
  mkDrivingState v (m_lapTime s) (m_pidProcessTime s) (m_topSpeed s)
    (m_lineStatus s) (m_trackStatus s) (m_startEndLineDebounce s).

Definition set_lapTime (v : SimpleTimer.t) (s : DrivingState) :=
  mkDrivingState (m_observationTimer s) v (m_pidProcessTime s) (m_topSpeed s)
    (m_lineStatus s) (m_trackStatus s) (m_startEndLineDebounce s).

Definition set_pidProcessTime (v : SimpleTimer.t) (s : DrivingState) :=
  mkDrivingState (m_observationTimer s) (m_lapTime s) v (m_topSpeed s)
    (m_lineStatus s) (m_trackStatus s) (m_startEndLineDebounce s).

Definition set_topSpeed (v : Z) (s : DrivingState) :=
  mkDrivingState (m_observationTimer s) (m_lapTime s) (m_pidProcessTime s) v
    (m_lineStatus s) (m_trackStatus s) (m_startEndLineDebounce s).

Definition set_lineStatus (v : LineStatus) (s : DrivingState) :=
  mkDrivingState (m_observationTimer s) (m_lapTime s) (m_pidProcessTime s)
    (m_topSpeed s) v (m_trackStatus s) (m_startEndLineDebounce s).

Definition set_trackStatus (v : TrackStatus) (s : DrivingState) :=
  mkDrivingState (m_observationTimer s) (m_lapTime s) (m_pidProcessTime s)
    (m_topSpeed s) (m_lineStatus s) v (m_startEndLineDebounce s).

Definition set_startEndLineDebounce (v : Z) (s : DrivingState) :=
  mkDrivingState (m_observationTimer s) (m_lapTime s) (m_pidProcessTime s)
    (m_topSpeed s) (m_lineStatus s) (m_trackStatus s) v.

(** ** Collaborators *)

(** A call made on a collaborator, with the values of its arguments. *)
Inductive Call : Type :=
| DiffDrive_setLinearSpeed (left right : Z)
| Sound_playAlarm
| Sound_playBeep
| YellowLed_enable (on : bool)
| Odometry_clearMileage
| StateMachine_setState_ReadyState
| ReadyState_setLapTime (lapTime : Z)
| PosMovAvg_clear
| PosMovAvg_write (value : Z)
| PidCtrl_clear
| PidCtrl_setPFactor (numerator denominator : Z)
| PidCtrl_setIFactor (numerator denominator : Z)
| PidCtrl_setDFactor (numerator denominator : Z)
| PidCtrl_setSampleTime (period : Z)
| PidCtrl_setLimits (min max : Z)
| PidCtrl_setDerivativeOnMeasurement (enable : bool)
| PidCtrl_calculate (setpoint processValue : Z)
| PidCtrl_resync.

Definition is_setLinearSpeed (c : Call) : bool :=
  match c with DiffDrive_setLinearSpeed _ _ => true | _ => false end.

Definition is_resync (c : Call) : bool :=
  match c with PidCtrl_resync => true | _ => false end.

(** The drive commands of a trace, in order. *)
Definition driveCommands (tr : list Call) : list Call :=
  filter is_setLinearSpeed tr.

(** The number of [resync()] calls of a trace. *)
Definition resyncCount (tr : list Call) : nat :=
  length (filter is_resync tr).

(** What the [ILineSensors] driver answers during one tick. *)
Record ILineSensors : Type := mkLineSensors {
  readLine : Z;                          (* int16_t *)
  getSensorValues : option (list Z);     (* uint16_t array, None = nullptr *)
  getNumLineSensors : Z;                 (* uint8_t *)
  getSensorValueMax : Z                  (* int16_t *)
}.

Record ParameterSet : Type := mkParameterSet {
  topSpeed : Z;
  kPNumerator : Z; kPDenominator : Z;
  kINumerator : Z; kIDenominator : Z;
  kDNumerator : Z; kDDenominator : Z
}.

(** What the collaborators answer during one tick. *)
Record Env : Type := mkEnv {
  millis : Z;                    (* the uint32_t millisecond clock *)
  lineSensors : ILineSensors;    (* Board::getInstance().getLineSensors() *)
  posMovAvg_getResult : Z;       (* m_posMovAvg.getResult(), int16_t *)
  pidCtrl_calculate : Z;         (* what m_pidCtrl.calculate() returns *)
  getMileageCenter : Z;          (* Odometry::getMileageCenter(), uint32_t *)
  getMaxMotorSpeed : Z;          (* DifferentialDrive::getMaxMotorSpeed() *)
  getParameterSet : ParameterSet (* ParameterSets::getParameterSet() *)
}.

(** ** The state and call-trace monad *)

Definition M (A : Type) : Type := DrivingState -> A * DrivingState * list Call.

Definition ret {A} (a : A) : M A := fun s => (a, s, []).

Definition bind {A B} (m : M A) (f : A -> M B) : M B :=
  fun s =>
    let '(a, s1, t1) := m s in
    let '(b, s2, t2) := f a s1 in
    (b, s2, t1 ++ t2).

Definition get : M DrivingState := fun s => (s, s, []).

Definition modify (f : DrivingState -> DrivingState) : M unit :=
  fun s => (tt, f s, []).

Definition call (c : Call) : M unit := fun s => (tt, s, [c]).

Definition when (b : bool) (m : M unit) : M unit := if b then m else ret tt.

Declare Scope m_scope.
Delimit Scope m_scope with M.
Notation "x <- m ;; k" := (bind m (fun x => k))
  (at level 61, m at next level, right associativity) : m_scope.
Notation "m ;; k" := (bind m (fun _ => k))
  (at level 61, right associativity) : m_scope.
Local Open Scope m_scope.

(** State and trace after running a computation. *)
Definition stateOf {A} (r : A * DrivingState * list Call) : DrivingState :=
  snd (fst r).
Definition traceOf {A} (r : A * DrivingState * list Call) : list Call :=
  snd r.
Definition valueOf {A} (r : A * DrivingState * list Call) : A :=
  fst (fst r).

(** ** The application: setup and loop

    [lib/APPConvoyLeader/App.cpp].  The application owns two timers and
    the id of the telemetry channel; the SerialMuxProt server, the
    speedometer, the differential drive, the odometry and the system
    state machine are collaborators, whose calls are recorded in order. *)

Module App.

(** The payload of the telemetry channel, as [reportVehicleData] fills
    it. *)
Record VehicleData : Type := mkVehicleData {
  xPos : Z;
  yPos : Z;
  orientation : Z;
  left : Z;
  right : Z;
  center : Z
}.

Inductive AppCall : Type :=
| Serial_begin (baudrate : Z)
| Logging_disable
| Board_init
| SystemStateMachine_setState_StartupState
| SMPServer_createChannel_CurrentVehicleData
| SMPServer_subscribeToChannel_SpeedSetpoint
| SMPServer_process (timestamp : Z)
| Speedometer_process
| DifferentialDrive_process (period : Z)
| Odometry_process
| SMPServer_sendData (channel : Z) (payload : VehicleData)
| SystemStateMachine_process.

Definition is_sendData (c : AppCall) : bool :=
  match c with SMPServer_sendData _ _ => true | _ => false end.

Definition is_driveControl (c : AppCall) : bool :=
  match c with DifferentialDrive_process _ => true | _ => false end.

(** What the collaborators answer during [setup] or one [loop]. *)
Record AppEnv : Type := mkAppEnv {
  millis : Z;                     (* the uint32_t millisecond clock *)
  createChannel : Z;              (* id of the new channel, 0 = none *)
  getPosition : Z * Z;            (* Odometry::getPosition(x, y) *)
  getOrientation : Z;             (* Odometry::getOrientation() *)
  getLinearSpeedLeft : Z;         (* Speedometer *)
  getLinearSpeedRight : Z;
  getLinearSpeedCenter : Z
}.

Record t : Type := mk {
  m_controlInterval : SimpleTimer.t;
  m_reportTimer : SimpleTimer.t;
  m_serialMuxProtChannelIdCurrentVehicleData : Z    (* uint8_t *)
}.

Section WithConstants.

(** Constants of [App.h], which is not among the sources. *)
Variable SERIAL_BAUDRATE : Z.
Variable DIFFERENTIAL_DRIVE_CONTROL_PERIOD : Z.   (* [ms] *)
Variable REPORTING_PERIOD : Z.                    (* [ms] *)

(** [void App::setup()] *)
Definition setup (env : AppEnv) (a : t) : t * list AppCall :=
  let controlInterval :=
    SimpleTimer.start DIFFERENTIAL_DRIVE_CONTROL_PERIOD (millis env) in
  let channelId := uint8 (createChannel env) in
  let reportTimer :=
    if negb (0 =? channelId)
    then SimpleTimer.start REPORTING_PERIOD (millis env)
    else m_reportTimer a in
  (mk controlInterval reportTimer channelId,
   [Serial_begin SERIAL_BAUDRATE;
    Logging_disable;
    Board_init;
    SystemStateMachine_setState_StartupState;
    SMPServer_createChannel_CurrentVehicleData;
    SMPServer_subscribeToChannel_SpeedSetpoint]).

(** [void App::reportVehicleData()] *)
Definition reportVehicleData (env : AppEnv) (a : t) : list AppCall :=
  let '(x, y) := getPosition env in
  let payload :=
    mkVehicleData x y (getOrientation env) (getLinearSpeedLeft env)
      (getLinearSpeedRight env) (getLinearSpeedCenter env) in
  [SMPServer_sendData (m_serialMuxProtChannelIdCurrentVehicleData a) payload].

(** [void App::loop()] *)
Definition loop (env : AppEnv) (a : t) : t * list AppCall :=
  let first := [SMPServer_process (millis env); Speedometer_process] in
  let '(a1, control) :=
    if SimpleTimer.isTimeout (m_controlInterval a) (millis env) then
      (mk (SimpleTimer.restart (m_controlInterval a) (millis env))
          (m_reportTimer a) (m_serialMuxProtChannelIdCurrentVehicleData a),
       [DifferentialDrive_process DIFFERENTIAL_DRIVE_CONTROL_PERIOD;
        Odometry_process])
    else (a, []) in
  let '(a2, report) :=
    if SimpleTimer.isTimeout (m_reportTimer a1) (millis env) then
      (mk (m_controlInterval a1)
          (SimpleTimer.restart (m_reportTimer a1) (millis env))
          (m_serialMuxProtChannelIdCurrentVehicleData a1),
       reportVehicleData env a1)
    else (a1, []) in
  (a2, first ++ control ++ report ++ [SystemStateMachine_process]).

(** The application after [setup]: one [loop] call per clock reading.
    Returns the final state and the calls of every iteration. *)
Fixpoint loops (envs : list AppEnv) (a : t) : t * list (list AppCall) :=
  match envs with
  | [] => (a, [])
  | env :: envs' =>
    let '(a1, tr) := loop env a in
    let '(a2, trs) := loops envs' a1 in
    (a2, tr :: trs)
  end.

End WithConstants.

(** The application object before [setup]. *)
Definition constructed : t := mk SimpleTimer.init SimpleTimer.init 0.

(** Example clock readings and answers of the collaborators. *)
Definition exampleEnv (now channel : Z) : AppEnv :=
  mkAppEnv now channel (100, 200) 1571 1500 1600 1550.

End App.

(** ** The driving state *)

Section DrivingState.

(** Constants of [DrivingState.h], which is not among the sources. *)
Variable OBSERVATION_DURATION : Z.   (* [ms] *)
Variable PID_PROCESS_PERIOD : Z.     (* [ms] *)
Variable MAX_DISTANCE : Z.           (* [mm] *)

(** [bool DrivingState::isTrackGapDetected(int16_t position) const] *)
Definition isTrackGapDetected (sensors : ILineSensors) (position : Z) : bool :=
  let POS_MIN := 0 in
  let POS_MAX := int16 ((getNumLineSensors sensors - 1) * 1000) in
  if (POS_MIN >=? position) || (POS_MAX <=? position) then true else false.

(** The condition of the [if] in [isStartEndLineDetected].  The three
    interior readings are [uint16_t] values added and divided in [int]
    (32 bit in the simulation this board header belongs to), the
    quotient is converted back to [uint16_t]. *)
Definition startEndLineCondition (lineSensorValues : list Z) : bool :=
  let leftSensor := nth 0 lineSensorValues 0 in
  let middleSensor :=
    uint16 ((nth 1 lineSensorValues 0 + nth 2 lineSensorValues 0
             + nth 3 lineSensorValues 0) / 3) in
  let rightSensor := nth 4 lineSensorValues 0 in
  let LINE_SENSOR_OFF_TRACK_VALUE := 200 in
  (LINE_SENSOR_OFF_TRACK_VALUE <=? leftSensor)
  && (LINE_SENSOR_OFF_TRACK_VALUE <=? middleSensor)
  && (LINE_SENSOR_OFF_TRACK_VALUE <=? rightSensor).

Definition DEBOUNCE_CNT : Z := 3.

(** [bool DrivingState::isStartEndLineDetected(const uint16_t [])] *)
Definition isStartEndLineDetected (lineSensorValues : list Z) : M bool :=
  if startEndLineCondition lineSensorValues then
    s <- get ;;
    when (DEBOUNCE_CNT >? m_startEndLineDebounce s)
      (modify (set_startEndLineDebounce
                 (uint8 (m_startEndLineDebounce s + 1)))) ;;
    s <- get ;;
    ret (DEBOUNCE_CNT <=? m_startEndLineDebounce s)
  else
    modify (set_startEndLineDebounce 0) ;;
    ret false.

(** [void DrivingState::adaptDriving(int16_t position)] *)
Definition adaptDriving (env : Env) (position : Z) : M unit :=
  s <- get ;;
  call (PidCtrl_calculate (getSensorValueMax (lineSensors env) * 2) position) ;;
  (let speedDifference := int16 (pidCtrl_calculate env) in
   let leftSpeed := int16 (m_topSpeed s - speedDifference) in
   let rightSpeed := int16 (m_topSpeed s + speedDifference) in
   let leftSpeed := constrain leftSpeed 0 (m_topSpeed s) in
   let rightSpeed := constrain rightSpeed 0 (m_topSpeed s) in
   call (DiffDrive_setLinearSpeed leftSpeed rightSpeed)).

(** [void DrivingState::processOnTrack(int16_t, const uint16_t [])] *)
Definition processOnTrack (env : Env) (position : Z)
    (lineSensorValues : option (list Z)) : M unit :=
  match lineSensorValues with
  | None => ret tt
  | Some lineSensorValues =>
    if isTrackGapDetected (lineSensors env) (posMovAvg_getResult env) then
      modify (set_trackStatus TRACK_STATUS_LOST) ;;
      call Odometry_clearMileage ;;
      call (YellowLed_enable true)
    else
      isDetected <- isStartEndLineDetected lineSensorValues ;;
      s <- get ;;
      (if isDetected then
         if LineStatus_eqb LINE_STATUS_FIND_START_LINE (m_lineStatus s) then
           modify (set_lineStatus LINE_STATUS_START_LINE_DETECTED) ;;
           call Sound_playBeep ;;
           modify (set_lapTime (SimpleTimer.start 0 (millis env)))
         else if LineStatus_eqb LINE_STATUS_FIND_END_LINE (m_lineStatus s) then
           call (DiffDrive_setLinearSpeed 0 0) ;;
           call Sound_playBeep ;;
           modify (set_trackStatus TRACK_STATUS_FINISHED) ;;
           call (ReadyState_setLapTime
                   (SimpleTimer.getCurrentDuration (m_lapTime s) (millis env)))
         else ret tt
       else if LineStatus_eqb LINE_STATUS_START_LINE_DETECTED
                 (m_lineStatus s) then
         modify (set_lineStatus LINE_STATUS_FIND_END_LINE)
       else ret tt) ;;
      s <- get ;;
      when (negb (TrackStatus_eqb TRACK_STATUS_FINISHED (m_trackStatus s)))
        (when (SimpleTimer.isTimeout (m_pidProcessTime s) (millis env))
           (adaptDriving env position ;;
            modify (set_pidProcessTime
                      (SimpleTimer.start PID_PROCESS_PERIOD (millis env)))))
  end.

(** [void DrivingState::processTrackLost(int16_t, const uint16_t [])] *)
Definition processTrackLost (env : Env) (position : Z)
    (lineSensorValues : option (list Z)) : M unit :=
  match lineSensorValues with
  | None => ret tt
  | Some _ =>
    if negb (isTrackGapDetected (lineSensors env) position) then
      modify (set_trackStatus TRACK_STATUS_ON_TRACK) ;;
      call PidCtrl_resync ;;
      call (YellowLed_enable false)
    else if MAX_DISTANCE <? getMileageCenter env then
      call (DiffDrive_setLinearSpeed 0 0) ;;
      call Sound_playAlarm ;;
      modify (set_trackStatus TRACK_STATUS_FINISHED)
    else
      s <- get ;;
      call (DiffDrive_setLinearSpeed (m_topSpeed s) (m_topSpeed s))
  end.

(** The [switch (m_trackStatus)] of [process].  The [default] branch
    has no counterpart: the enumeration has the three values above. *)
Definition dispatch (env : Env) (position : Z) : M unit :=
  s <- get ;;
  match m_trackStatus s with
  | TRACK_STATUS_ON_TRACK =>
    processOnTrack env position (getSensorValues (lineSensors env))
  | TRACK_STATUS_LOST =>
    processTrackLost env position (getSensorValues (lineSensors env))
  | TRACK_STATUS_FINISHED =>
    call StateMachine_setState_ReadyState
  end.

(** The closing [if] of [process]: max. time for finishing the track. *)
Definition observationCutoff (env : Env) : M unit :=
  s <- get ;;
  when (negb (TrackStatus_eqb TRACK_STATUS_FINISHED (m_trackStatus s))
        && SimpleTimer.isTimeout (m_observationTimer s) (millis env))
    (modify (set_trackStatus TRACK_STATUS_FINISHED) ;;
     call (DiffDrive_setLinearSpeed 0 0) ;;
     call Sound_playAlarm).

(** [void DrivingState::process(StateMachine& sm)] *)
Definition process (env : Env) : M unit :=
  let position := readLine (lineSensors env) in
  call (PosMovAvg_write position) ;;
  dispatch env position ;;
  observationCutoff env.

(** [void DrivingState::entry()] *)
Definition entry (env : Env) : M unit :=
  let parSet := getParameterSet env in
  let maxSpeed := int16 (getMaxMotorSpeed env) in
  modify (set_observationTimer
            (SimpleTimer.start OBSERVATION_DURATION (millis env))) ;;
  modify (set_pidProcessTime (SimpleTimer.start 0 (millis env))) ;;
  modify (set_lineStatus LINE_STATUS_FIND_START_LINE) ;;
  modify (set_trackStatus TRACK_STATUS_ON_TRACK) ;;
  call PosMovAvg_clear ;;
  modify (set_topSpeed (int16 (topSpeed parSet))) ;;
  call PidCtrl_clear ;;
  call (PidCtrl_setPFactor (kPNumerator parSet) (kPDenominator parSet)) ;;
  call (PidCtrl_setIFactor (kINumerator parSet) (kIDenominator parSet)) ;;
  call (PidCtrl_setDFactor (kDNumerator parSet) (kDDenominator parSet)) ;;
  call (PidCtrl_setSampleTime PID_PROCESS_PERIOD) ;;
  call (PidCtrl_setLimits (- maxSpeed) maxSpeed) ;;
  call (PidCtrl_setDerivativeOnMeasurement true).

(** [void DrivingState::exit()] *)
Definition exit : M unit :=
  s <- get ;;
  modify (set_observationTimer (SimpleTimer.stop (m_observationTimer s))) ;;
  call (YellowLed_enable false).

(** A lap attempt after [entry]: one [process] call per tick, each with
    the answers of that tick.  Returns the final state and the trace of
    every tick. *)
Fixpoint run (envs : list Env) (s : DrivingState)
    : DrivingState * list (list Call) :=
  match envs with
  | [] => (s, [])
  | env :: envs' =>
    let r := process env s in
    let '(s', trs) := run envs' (stateOf r) in
    (s', traceOf r :: trs)
  end.

(** The debounce detector run over the sensor readings of consecutive
    ticks: the answers it gives, and the state it leaves. *)
Fixpoint detectRun (readings : list (list Z)) (s : DrivingState)
    : list bool * DrivingState :=
  match readings with
  | [] => ([], s)
  | v :: readings' =>
    let r := isStartEndLineDetected v s in
    let '(bs, s') := detectRun readings' (stateOf r) in
    (valueOf r :: bs, s')
  end.


(** The track status left by the [switch] of one tick, before the
    closing observation check. *)
Definition dispatchedStatus (env : Env) (s : DrivingState) : TrackStatus :=
  m_trackStatus (stateOf (dispatch env (readLine (lineSensors env)) s)).

(** A tick whose [switch] takes the track status from lost to on track. *)
Definition lostToOnTrack (env : Env) (s : DrivingState) : bool :=
  TrackStatus_eqb TRACK_STATUS_LOST (m_trackStatus s)
  && TrackStatus_eqb TRACK_STATUS_ON_TRACK (dispatchedStatus env s).

(** For each tick of a lap attempt, whether it is such a tick. *)
Fixpoint lostToOnTrackTicks (envs : list Env) (s : DrivingState) : list bool :=
  match envs with
  | [] => []
  | env :: envs' =>
    lostToOnTrack env s :: lostToOnTrackTicks envs' (stateOf (process env s))
  end.

(** *** The specification's wording of the start/end-line condition *)

(** The channels between the two outermost ones. *)
Definition interiorChannels (values : list Z) : list Z :=
  removelast (tl values).

Definition average (l : list Z) : Z :=
  fold_right Z.add 0 l / Z.of_nat (length l).

Definition HIGH_REFLECTANCE_THRESHOLD : Z := 200.

(** A crossing is present when the two outermost channels and the
    composite of the interior ones are at or above the threshold. *)
Definition crossingPresent (values : list Z) : bool :=
  (HIGH_REFLECTANCE_THRESHOLD <=? hd 0 values)
  && (HIGH_REFLECTANCE_THRESHOLD <=? last values 0)
  && (HIGH_REFLECTANCE_THRESHOLD <=? average (interiorChannels values)).

(** Present in this tick and in the two ticks before it; [p2] and [p1]
    stand for the two ticks before the first one of the list. *)
Fixpoint threeInARow (p2 p1 : bool) (present : list bool) : list bool :=
  match present with
  | [] => []
  | p :: present' => (p2 && p1 && p) :: threeInARow p1 p present'
  end.

(** The array the line sensor driver hands out: five [uint16_t]. *)
Definition sensorArray (values : list Z) : bool :=
  (length values =? 5)%nat && forallb is_uint16b values.


(** The midpoint of the position range [0 .. (numSensors - 1) * 1000]. *)
Definition positionMidpoint (sensors : ILineSensors) : Z :=
  (getNumLineSensors sensors - 1) * 1000 / 2.

(** The drive command that stops both wheels. *)
Definition stopCommand : Call := DiffDrive_setLinearSpeed 0 0.

(** 1 for a tick that counts, 0 otherwise. *)
Definition countOf (b : bool) : nat := if b then 1%nat else 0%nat.

(** The two wheel speeds [adaptDriving] hands to the drive. *)
Definition commandedLeft (env : Env) (s : DrivingState) : Z :=
  constrain (int16 (m_topSpeed s - int16 (pidCtrl_calculate env)))
    0 (m_topSpeed s).

Definition commandedRight (env : Env) (s : DrivingState) : Z :=
  constrain (int16 (m_topSpeed s + int16 (pidCtrl_calculate env)))
    0 (m_topSpeed s).

(** What the counter says about the two ticks before the next one. *)
Definition counterTracks (counter : Z) (p2 p1 : bool) : Prop :=
  (counter = 0 /\ p1 = false)
  \/ (counter = 1 /\ p1 = true /\ p2 = false)
  \/ ((counter = 2 \/ counter = 3) /\ p1 = true /\ p2 = true).

(** *** Example inputs

    Concrete values for the runs further below: the line sensors of the
    robot (five channels, channel maximum 1000), a parameter set, and
    values for the three constants. *)

Definition EXAMPLE_OBSERVATION_DURATION : Z := 3000000.
Definition EXAMPLE_PID_PROCESS_PERIOD : Z := 10.
Definition EXAMPLE_MAX_DISTANCE : Z := 200.

Definition fiveSensors (position : Z) (values : option (list Z))
    : ILineSensors :=
  mkLineSensors position values 5 1000.

Definition exampleParameterSet (top : Z) : ParameterSet :=
  mkParameterSet top 1 1 0 1 0 1.

(** One tick: clock, raw position, sensor array, filtered position, PID
    answer and mileage; top speed and maximum motor speed of the setup. *)
Definition exampleEnv (now position : Z) (values : option (list Z))
    (filtered pid mileage top maxSpeed : Z) : Env :=
  mkEnv now (fiveSensors position values) filtered pid mileage maxSpeed
    (exampleParameterSet top).

(** The object before its first [entry]. *)
Definition constructed : DrivingState :=
  mkDrivingState SimpleTimer.init SimpleTimer.init SimpleTimer.init 0
    LINE_STATUS_FIND_START_LINE TRACK_STATUS_ON_TRACK 0.

(** Only the middle channel sees the line. *)
Definition onLine : list Z := [0; 0; 1000; 0; 0].

(** All channels see the line: a start or end line. *)
Definition onCrossing : list Z := [1000; 1000; 1000; 1000; 1000].

(** The environment [entry] runs in, at clock value [now]. *)
Definition entryEnv (now top maxSpeed : Z) : Env :=
  exampleEnv now 2000 (Some onLine) 2000 0 0 top maxSpeed.

(** The driving state right after [entry] at clock value 0 with top
    speed 200 (see [entered_by_entry]). *)
Definition entered : DrivingState :=
  mkDrivingState (SimpleTimer.mk true EXAMPLE_OBSERVATION_DURATION 0)
    SimpleTimer.init (SimpleTimer.mk true 0 0) 200
    LINE_STATUS_FIND_START_LINE TRACK_STATUS_ON_TRACK 0.

(** The same, with the track already lost. *)
Definition enteredLost : DrivingState :=
  set_trackStatus TRACK_STATUS_LOST entered.

(** A tick on the line, in the middle of the range, at the moment the
    observation timer elapses; the PID controller answers 50. *)
Definition timeoutTick : Env :=
  exampleEnv 3000000 2000 (Some onLine) 2000 50 0 200 400.

(** No channel sees the line. *)
Definition offLine : list Z := [0; 0; 0; 0; 0].

(** Three ticks on a crossing followed by one on the plain line. *)
Definition debounceReadings : list (list Z) :=
  [onCrossing; onCrossing; onCrossing; onLine].

(** Ticks for a lost track: the line is back under the middle sensor;
    the line is still missing after 50 mm; still missing after 201 mm. *)
Definition backOnTrackTick : Env :=
  exampleEnv 500 2000 (Some onLine) 0 0 50 200 400.
Definition searchingTick : Env :=
  exampleEnv 500 0 (Some offLine) 0 0 50 200 400.
Definition searchedTooFarTick : Env :=
  exampleEnv 500 0 (Some offLine) 0 0 201 200 400.


(** A first lap attempt: two ticks on a crossing, the second one at the
    moment the observation timer elapses.  Then the next attempt: its
    [entry], and a first tick in which all channels read high once. *)
Definition firstAttempt : list Env :=
  [exampleEnv 2999990 2000 (Some onCrossing) 2000 0 0 200 400;
   exampleEnv 3000000 2000 (Some onCrossing) 2000 0 0 200 400].
Definition secondEntryEnv : Env := entryEnv 3000100 200 400.
Definition glitchTick : Env :=
  exampleEnv 3000110 2000 (Some onCrossing) 2000 0 0 200 400.

(** *** Notions for the properties of whole ticks and lap attempts *)

Definition is_calculate (c : Call) : bool :=
  match c with PidCtrl_calculate _ _ => true | _ => false end.

(** The number of steering computations of a trace. *)
Definition steeringCount (tr : list Call) : nat :=
  length (filter is_calculate tr).

Definition is_clearMileage (c : Call) : bool :=
  match c with Odometry_clearMileage => true | _ => false end.

(** The number of [clearMileage()] calls of a trace. *)
Definition clearMileageCount (tr : list Call) : nat :=
  length (filter is_clearMileage tr).

(** A call that, when it is a drive command, keeps both wheel speeds
    between 0 and [top]. *)
Definition withinTopSpeed (top : Z) (c : Call) : Prop :=
  match c with
  | DiffDrive_setLinearSpeed l r => 0 <= l <= top /\ 0 <= r <= top
  | _ => True
  end.

(** The state of the yellow LED after the calls of a trace, when it was
    [led] before. *)
Fixpoint ledAfter (led : bool) (tr : list Call) : bool :=
  match tr with
  | [] => led
  | YellowLed_enable on :: tr' => ledAfter on tr'
  | _ :: tr' => ledAfter led tr'
  end.

(** The LED is on while the track is lost and off while on track. *)
Definition ledShowsLost (s : DrivingState) (led : bool) : Prop :=
  (m_trackStatus s = TRACK_STATUS_LOST -> led = true)
  /\ (m_trackStatus s = TRACK_STATUS_ON_TRACK -> led = false).

(** A tick whose [switch] takes the track status from on track to lost. *)
Definition onTrackToLost (env : Env) (s : DrivingState) : bool :=
  TrackStatus_eqb TRACK_STATUS_ON_TRACK (m_trackStatus s)
  && TrackStatus_eqb TRACK_STATUS_LOST (dispatchedStatus env s).

(** The debounce counter is between 0 and DEBOUNCE_CNT. *)
Definition debounceInRange (s : DrivingState) : Prop :=
  0 <= m_startEndLineDebounce s <= DEBOUNCE_CNT.

(** Ticks at a given clock value, in the middle of the range: on a
    crossing, on the plain line, and with no sensor array at hand. *)
Definition crossingTickAt (now : Z) : Env :=
  exampleEnv now 2000 (Some onCrossing) 2000 0 0 200 400.
Definition lineTickAt (now : Z) : Env :=
  exampleEnv now 2000 (Some onLine) 2000 0 0 200 400.
Definition blindTickAt (now : Z) : Env :=
  exampleEnv now 2000 None 2000 0 0 200 400.

(** A lap: the third tick on the start line, one tick past it, two
    ticks on the end line; then the third tick on the end line. *)
Definition onStartLine : DrivingState := set_startEndLineDebounce 2 entered.
Definition lapTicks : list Env :=
  [lineTickAt 110; crossingTickAt 120; crossingTickAt 130].
Definition onEndLine : DrivingState :=
  set_lineStatus LINE_STATUS_FIND_END_LINE onStartLine.

(** A line sensor driver with a single channel. *)
Definition oneSensor : ILineSensors := mkLineSensors 0 None 1 1000.

(** ** Properties *)

Ltac unfold_m := unfold bind, ret, get, modify, call, when in *.

Ltac case_if :=
  match goal with
  | |- context [if ?b then _ else _] => destruct b eqn:?
  end.

Lemma int16_id z : is_int16 z -> int16 z = z.
Proof.
  unfold is_int16, int16. intros H.
  rewrite Z.mod_small by lia. lia.
Qed.

Lemma isTrackGapDetected_unfold sensors p :
  isTrackGapDetected sensors p
  = (0 >=? p) || (int16 ((getNumLineSensors sensors - 1) * 1000) <=? p).
Proof.
  unfold isTrackGapDetected.
  destruct ((0 >=? p) || _); reflexivity.
Qed.

(** C3 (as amended).  When the largest position (numSensors - 1) * 1000
    is representable as int16_t, that is for 2 <= numSensors <= 33, the
    gap test answers true exactly when the position is at or below 0 or
    at or above that maximum; it answers true at 0 and at the maximum,
    false at the midpoint, and is a function of the position alone (no
    debouncing state). *)
Theorem isTrackGapDetected_spec :
  forall (sensors : ILineSensors) (p : Z),
    2 <= getNumLineSensors sensors <= 33 ->
    let max := (getNumLineSensors sensors - 1) * 1000 in
    (isTrackGapDetected sensors p = true <-> p <= 0 \/ max <= p)
    /\ isTrackGapDetected sensors 0 = true
    /\ isTrackGapDetected sensors max = true
    /\ isTrackGapDetected sensors (max / 2) = false.
Proof.
  intros sensors p Hn max.
  assert (Hmax : int16 max = max)
    by (apply int16_id; unfold is_int16; subst max; lia).
  assert (Hhalf : 0 < max / 2 < max).
  { subst max. split.
    - apply Z.div_str_pos. lia.
    - apply Z.div_lt; lia. }
  assert (Hgap : forall q, isTrackGapDetected sensors q = true
                           <-> q <= 0 \/ max <= q).
  { intros q. rewrite isTrackGapDetected_unfold. fold max. rewrite Hmax.
    rewrite orb_true_iff, Z.geb_le, Z.leb_le. reflexivity. }
  split; [apply Hgap|].
  split; [apply Hgap; lia|].
  split; [apply Hgap; lia|].
  apply not_true_is_false. rewrite Hgap. lia.
Qed.

(** C10.  With a null sensor array, [processOnTrack] and
    [processTrackLost] return at once: the state (line status, track
    status, debounce counter, timers, top speed) is the one they were
    called with and no call is made on any collaborator, neither on the
    drive nor on the PID controller; that holds whatever the position,
    the mileage and the clock are, so neither the recovery check nor the
    distance check is evaluated. *)
Theorem null_sensor_array_returns_immediately :
  forall (env : Env) (position : Z) (s : DrivingState),
    processOnTrack env position None s = (tt, s, [])
    /\ processTrackLost env position None s = (tt, s, []).
Proof.
  intros env position s. split; reflexivity.
Qed.

Ltac unfold_driving :=
  unfold process, observationCutoff, dispatch, processOnTrack,
    processTrackLost, adaptDriving, isStartEndLineDetected in *;
  unfold_m.

Ltac crush_tick := repeat (simpl in *; try case_if); simpl in *.

(** C8.  A tick handled by [processTrackLost] with a sensor array at
    hand: when the gap test on the raw position is false the track
    status becomes on track (with a PID resync and the LED switched
    off); otherwise, when the mileage exceeds MAX_DISTANCE, the drive is
    stopped, the alarm is played and the track status becomes finished;
    otherwise both wheels are commanded to the top speed and the state
    stays as it is.  [process] hands every tick that starts lost to
    [processTrackLost] with the raw position. *)
Theorem processTrackLost_spec :
  forall (env : Env) (position : Z) (values : list Z) (s : DrivingState),
    let r := processTrackLost env position (Some values) s in
    (isTrackGapDetected (lineSensors env) position = false ->
       m_trackStatus (stateOf r) = TRACK_STATUS_ON_TRACK
       /\ traceOf r = [PidCtrl_resync; YellowLed_enable false])
    /\ (isTrackGapDetected (lineSensors env) position = true ->
         MAX_DISTANCE < getMileageCenter env ->
         m_trackStatus (stateOf r) = TRACK_STATUS_FINISHED
         /\ traceOf r = [DiffDrive_setLinearSpeed 0 0; Sound_playAlarm])
    /\ (isTrackGapDetected (lineSensors env) position = true ->
         getMileageCenter env <= MAX_DISTANCE ->
         stateOf r = s
         /\ traceOf r
            = [DiffDrive_setLinearSpeed (m_topSpeed s) (m_topSpeed s)])
    /\ (m_trackStatus s = TRACK_STATUS_LOST ->
         dispatch env (readLine (lineSensors env)) s
         = processTrackLost env (readLine (lineSensors env))
             (getSensorValues (lineSensors env)) s).
Proof.
  intros env position values s r. subst r.
  assert (Hdispatch : m_trackStatus s = TRACK_STATUS_LOST ->
            dispatch env (readLine (lineSensors env)) s
            = processTrackLost env (readLine (lineSensors env))
                (getSensorValues (lineSensors env)) s).
  { intros H. unfold dispatch, bind, get. simpl. rewrite H.
    destruct (processTrackLost _ _ _ s) as [[u s'] tr]. reflexivity. }
  unfold processTrackLost. unfold_m.
  repeat split; intros; try (apply Hdispatch; assumption);
    rewrite H; simpl; try reflexivity.
  - apply Z.ltb_lt in H0. rewrite H0. reflexivity.
  - apply Z.ltb_lt in H0. rewrite H0. reflexivity.
  - apply Z.ltb_ge in H0. rewrite H0. reflexivity.
  - apply Z.ltb_ge in H0. rewrite H0. reflexivity.
Qed.

Lemma process_lineRank (env : Env) (s : DrivingState) :
  lineRank (m_lineStatus s) <= lineRank (m_lineStatus (stateOf (process env s)))
    <= lineRank (m_lineStatus s) + 1.
Proof.
  unfold_driving. unfold stateOf.
  destruct s as [ot lt pt top ls ts db]; simpl.
  destruct ts; [destruct (getSensorValues (lineSensors env))
               |destruct (getSensorValues (lineSensors env))|];
    destruct ls; crush_tick; lia.
Qed.

(** C9.  No tick of [process] takes the line status backwards in the
    order find start line, start line detected, find end line: a tick
    leaves it where it is or moves it to the next value, and so over
    any number of ticks of a lap attempt it never holds an earlier
    value than before. *)
Theorem lineStatus_never_regresses :
  (forall (env : Env) (s : DrivingState),
      lineRank (m_lineStatus s)
      <= lineRank (m_lineStatus (stateOf (process env s)))
      <= lineRank (m_lineStatus s) + 1)
  /\ (forall (envs : list Env) (s : DrivingState),
        lineRank (m_lineStatus s)
        <= lineRank (m_lineStatus (fst (run envs s)))).
Proof.
  split; [exact process_lineRank|].
  induction envs as [|env envs IH]; intros s; simpl; [lia|].
  specialize (IH (stateOf (process env s))).
  destruct (run envs (stateOf (process env s))) as [s' trs]. simpl in *.
  pose proof (process_lineRank env s). lia.
Qed.

(** *** The structure of one tick *)

Lemma process_unfold (env : Env) (s : DrivingState) :
  let position := readLine (lineSensors env) in
  let r1 := dispatch env position s in
  let r2 := observationCutoff env (stateOf r1) in
  process env s
  = (tt, stateOf r2, PosMovAvg_write position :: traceOf r1 ++ traceOf r2).
Proof.
  simpl. unfold process, bind, call, stateOf, traceOf.
  destruct (dispatch env _ s) as [[[] s1] t1]. simpl.
  destruct (observationCutoff env s1) as [[[] s2] t2]. reflexivity.
Qed.

Lemma dispatch_observationTimer (env : Env) (position : Z) (s : DrivingState) :
  m_observationTimer (stateOf (dispatch env position s)) = m_observationTimer s.
Proof.
  unfold_driving. unfold stateOf.
  destruct s as [ot lt pt top ls ts db]; simpl.
  destruct ts; [destruct (getSensorValues (lineSensors env))
               |destruct (getSensorValues (lineSensors env))|];
    crush_tick; reflexivity.
Qed.

Lemma observationCutoff_fires (env : Env) (s : DrivingState) :
  m_trackStatus s <> TRACK_STATUS_FINISHED ->
  SimpleTimer.isTimeout (m_observationTimer s) (millis env) = true ->
  observationCutoff env s
  = (tt, set_trackStatus TRACK_STATUS_FINISHED s,
     [stopCommand; Sound_playAlarm]).
Proof.
  intros Hts Hto. unfold observationCutoff. unfold_m. simpl.
  rewrite Hto. destruct (m_trackStatus s); try congruence; reflexivity.
Qed.

Lemma observationCutoff_idle (env : Env) (s : DrivingState) :
  m_trackStatus s = TRACK_STATUS_FINISHED
  \/ SimpleTimer.isTimeout (m_observationTimer s) (millis env) = false ->
  observationCutoff env s = (tt, s, []).
Proof.
  intros H. unfold observationCutoff. unfold_m. simpl.
  destruct H as [H|H]; rewrite H; [reflexivity|].
  rewrite andb_false_r. reflexivity.
Qed.

Lemma dispatch_finished_stops (env : Env) (position : Z) (s : DrivingState) :
  m_trackStatus s <> TRACK_STATUS_FINISHED ->
  m_trackStatus (stateOf (dispatch env position s)) = TRACK_STATUS_FINISHED ->
  last (driveCommands (traceOf (dispatch env position s))) Sound_playAlarm
  = stopCommand.
Proof.
  unfold_driving. unfold stateOf, traceOf, driveCommands, stopCommand.
  destruct s as [ot lt pt top ls ts db]; simpl.
  destruct ts; [destruct (getSensorValues (lineSensors env))
               |destruct (getSensorValues (lineSensors env))|];
    intros Hts Hfin; try congruence;
    destruct ls; crush_tick; try reflexivity; try discriminate.
Qed.

(** C1 (as amended).  In a tick of [process] that starts with a track
    status other than finished and with the observation timer elapsed,
    the track status is finished when the tick returns and the last
    drive command of the tick is the stop.  The observation check comes
    after the [switch]: when the [switch] leaves a status other than
    finished, the calls of the tick are the filter write, the calls of
    the [switch], and then the stop followed by the alarm. *)
Theorem observation_timeout_finishes_tick :
  forall (env : Env) (s : DrivingState),
    m_trackStatus s <> TRACK_STATUS_FINISHED ->
    SimpleTimer.isTimeout (m_observationTimer s) (millis env) = true ->
    let position := readLine (lineSensors env) in
    let r := process env s in
    m_trackStatus (stateOf r) = TRACK_STATUS_FINISHED
    /\ last (driveCommands (traceOf r)) Sound_playAlarm = stopCommand
    /\ (dispatchedStatus env s <> TRACK_STATUS_FINISHED ->
         traceOf r
         = PosMovAvg_write position :: traceOf (dispatch env position s)
             ++ [stopCommand; Sound_playAlarm]).
Proof.
  intros env s Hts Hto position r. subst r.
  rewrite process_unfold. fold position. unfold dispatchedStatus. fold position.
  pose proof (dispatch_observationTimer env position s) as Hot.
  pose proof (dispatch_finished_stops env position s Hts) as Hstop.
  set (r1 := dispatch env position s) in *.
  destruct (m_trackStatus (stateOf r1)) eqn:Hd.
  1,2: rewrite observationCutoff_fires by (rewrite ?Hot; congruence);
       unfold stateOf at 1, traceOf at 1, traceOf at 2; simpl;
       repeat split; try reflexivity;
       unfold driveCommands; rewrite filter_app; simpl;
       apply last_last.
  rewrite observationCutoff_idle by (left; assumption).
  unfold stateOf at 1, traceOf at 1, traceOf at 2. simpl.
  rewrite app_nil_r. repeat split.
  - assumption.
  - apply Hstop. reflexivity.
  - congruence.
Qed.

(** *** PID resynchronisation *)

Lemma process_resyncCount (env : Env) (s : DrivingState) :
  resyncCount (traceOf (process env s)) = countOf (lostToOnTrack env s).
Proof.
  unfold lostToOnTrack, dispatchedStatus.
  unfold_driving. unfold stateOf, traceOf, resyncCount.
  destruct s as [ot lt pt top ls ts db]; simpl.
  destruct ts; [destruct (getSensorValues (lineSensors env))
               |destruct (getSensorValues (lineSensors env))|];
    destruct ls; crush_tick; reflexivity.
Qed.

Lemma lostToOnTrack_iff (env : Env) (s : DrivingState) :
  lostToOnTrack env s = true
  <-> m_trackStatus s = TRACK_STATUS_LOST
      /\ getSensorValues (lineSensors env) <> None
      /\ isTrackGapDetected (lineSensors env) (readLine (lineSensors env))
         = false.
Proof.
  unfold lostToOnTrack, dispatchedStatus.
  unfold_driving. unfold stateOf.
  destruct s as [ot lt pt top ls ts db]; simpl.
  destruct ts; [destruct (getSensorValues (lineSensors env))
               |destruct (getSensorValues (lineSensors env))|];
    destruct ls; crush_tick;
    (split; [intros; try discriminate | intros (? & ? & ?)]);
    repeat match goal with
           | H : negb _ = true |- _ => apply negb_true_iff in H
           | H : negb _ = false |- _ => apply negb_false_iff in H
           end;
    repeat split; congruence.
Qed.

(** C7.  In every tick of [process] the PID controller's [resync] is
    called once when the [switch] of that tick takes the track status
    from lost to on track, and not at all otherwise; such a tick is one
    that starts lost, has a sensor array, and whose gap test on the raw
    position is false.  Over a lap attempt of any length the resync
    counts of the ticks are the indicator of those ticks, and [entry]
    calls no resync. *)
Theorem resync_exactly_on_lost_to_on_track :
  (forall (env : Env) (s : DrivingState),
      resyncCount (traceOf (process env s)) = countOf (lostToOnTrack env s))
  /\ (forall (env : Env) (s : DrivingState),
        lostToOnTrack env s = true
        <-> m_trackStatus s = TRACK_STATUS_LOST
            /\ getSensorValues (lineSensors env) <> None
            /\ isTrackGapDetected (lineSensors env)
                 (readLine (lineSensors env)) = false)
  /\ (forall (envs : list Env) (s : DrivingState),
        map resyncCount (snd (run envs s))
        = map countOf (lostToOnTrackTicks envs s))
  /\ (forall (env : Env) (s : DrivingState),
        resyncCount (traceOf (entry env s)) = 0%nat).
Proof.
  split; [exact process_resyncCount|].
  split; [exact lostToOnTrack_iff|].
  split; [|reflexivity].
  induction envs as [|env envs IH]; intros s; simpl; [reflexivity|].
  specialize (IH (stateOf (process env s))).
  destruct (run envs (stateOf (process env s))) as [s' trs]. simpl in *.
  rewrite process_resyncCount, IH. reflexivity.
Qed.

(** *** Steering *)

Lemma constrain_range (x top : Z) :
  0 <= top -> 0 <= constrain x 0 top <= top.
Proof.
  intros H. unfold constrain.
  destruct (x <? 0) eqn:E1; [lia|].
  destruct (x >? top) eqn:E2; lia.
Qed.


Lemma adaptDriving_unfold (env : Env) (position : Z) (s : DrivingState) :
  adaptDriving env position s
  = (tt, s,
     [PidCtrl_calculate (getSensorValueMax (lineSensors env) * 2) position;
      DiffDrive_setLinearSpeed (commandedLeft env s) (commandedRight env s)]).
Proof. reflexivity. Qed.


Lemma process_calculate_args (env : Env) (s : DrivingState) (sp pv : Z) :
  In (PidCtrl_calculate sp pv) (traceOf (process env s)) ->
  sp = getSensorValueMax (lineSensors env) * 2
  /\ pv = readLine (lineSensors env).
Proof.
  unfold_driving. unfold stateOf, traceOf.
  destruct s as [ot lt pt top ls ts db]; simpl.
  destruct ts; [destruct (getSensorValues (lineSensors env))
               |destruct (getSensorValues (lineSensors env))|];
    destruct ls; crush_tick; intros H;
    repeat (destruct H as [H|H]; [try discriminate H|]);
    try contradiction;
    injection H as <- <-; split; reflexivity.
Qed.

(** C6.  The line sensors of this robot have five channels (the code
    reads the channels 0 to 4) with a channel maximum of 1000.  In every
    steering computation the setpoint passed to the PID controller then
    equals the midpoint of the sensor position range,
    (numSensors - 1) * 1000 / 2, and the process variable is the fused
    line position: the position [adaptDriving] is called with, which in
    [process] is the position read from the line sensors in that tick. *)
Theorem adaptDriving_setpoint :
  forall (env : Env) (s : DrivingState),
    getNumLineSensors (lineSensors env) = 5 ->
    getSensorValueMax (lineSensors env) = 1000 ->
    (forall position : Z,
        filter is_calculate (traceOf (adaptDriving env position s))
        = [PidCtrl_calculate (positionMidpoint (lineSensors env)) position])
    /\ (forall sp pv : Z,
          In (PidCtrl_calculate sp pv) (traceOf (process env s)) ->
          sp = positionMidpoint (lineSensors env)
          /\ pv = readLine (lineSensors env)).
Proof.
  intros env s Hn Hmax.
  assert (Hmid : getSensorValueMax (lineSensors env) * 2
                 = positionMidpoint (lineSensors env)).
  { unfold positionMidpoint. rewrite Hn, Hmax. reflexivity. }
  split.
  - intros position. rewrite adaptDriving_unfold. simpl.
    rewrite Hmid. reflexivity.
  - intros sp pv Hin.
    destruct (process_calculate_args env s sp pv Hin) as [-> ->].
    split; [exact Hmid|reflexivity].
Qed.

(** *** Start/end-line detection *)

Lemma sensorArray_inv (values : list Z) :
  sensorArray values = true ->
  exists a b c d e,
    values = [a; b; c; d; e]
    /\ 0 <= a < 65536 /\ 0 <= b < 65536 /\ 0 <= c < 65536
    /\ 0 <= d < 65536 /\ 0 <= e < 65536.
Proof.
  unfold sensorArray. intros H. apply andb_prop in H as [Hlen Hall].
  apply Nat.eqb_eq in Hlen.
  destruct values as [|a [|b [|c [|d [|e [|f l]]]]]]; try discriminate Hlen.
  exists a, b, c, d, e. simpl in Hall. unfold is_uint16b in Hall.
  repeat (apply andb_prop in Hall as [? Hall]).
  repeat match goal with
         | H : _ && _ = true |- _ => apply andb_prop in H as [? ?]
         end.
  repeat split; lia.
Qed.

(** On a sensor array the condition of the code is the condition of the
    specification. *)
Lemma startEndLineCondition_crossingPresent (values : list Z) :
  sensorArray values = true ->
  startEndLineCondition values = crossingPresent values.
Proof.
  intros H. apply sensorArray_inv in H
    as (a & b & c & d & e & -> & Ha & Hb & Hc & Hd & He).
  unfold startEndLineCondition, crossingPresent, average, interiorChannels,
    HIGH_REFLECTANCE_THRESHOLD, uint16.
  simpl. rewrite Z.add_0_r, Z.add_assoc.
  assert (Hq : 0 <= (b + c + d) / 3 < 65536).
  { split; [apply Z.div_pos; lia|].
    apply Z.div_lt_upper_bound; lia. }
  rewrite (Z.mod_small _ _ Hq).
  destruct (200 <=? a), (200 <=? e), (200 <=? (b + c + d) / 3); reflexivity.
Qed.

Lemma detectRun_threeInARow (readings : list (list Z)) :
  forall (s : DrivingState) (p2 p1 : bool),
    counterTracks (m_startEndLineDebounce s) p2 p1 ->
    fst (detectRun readings s)
    = threeInARow p2 p1 (map startEndLineCondition readings).
Proof.
  induction readings as [|v readings IH]; intros s p2 p1 Hc; [reflexivity|].
  simpl.
  specialize (IH (stateOf (isStartEndLineDetected v s)) p1
                (startEndLineCondition v)).
  destruct (detectRun readings (stateOf (isStartEndLineDetected v s)))
    as [bs s'] eqn:Erun.
  simpl in *. rewrite <- IH; clear IH.
  - f_equal. unfold isStartEndLineDetected, valueOf, DEBOUNCE_CNT, uint8.
    unfold_m. destruct s as [ot lt pt top ls ts db]. simpl in *.
    destruct (startEndLineCondition v); simpl.
    + destruct Hc as [[-> ->]|[[-> [-> ->]]|[[-> | ->] [-> ->]]]];
        cbn; try destruct p2; reflexivity.
    + rewrite !andb_false_r. reflexivity.
  - unfold isStartEndLineDetected, stateOf, DEBOUNCE_CNT, uint8.
    unfold_m. destruct s as [ot lt pt top ls ts db]. simpl in *.
    unfold counterTracks.
    destruct (startEndLineCondition v); simpl.
    + destruct Hc as [[-> ->]|[[-> [-> ->]]|[[-> | ->] [-> ->]]]];
        cbn; auto 6.
    + auto.
Qed.

Lemma threeInARow_nth (present : list bool) :
  forall (p2 p1 : bool) (k : nat),
    nth k (threeInARow p2 p1 present) false
    = nth k present false
      && nth k (p1 :: present) false
      && nth k (p2 :: p1 :: present) false.
Proof.
  induction present as [|p present IH]; intros p2 p1 k.
  - destruct k; reflexivity.
  - destruct k as [|k].
    + simpl. destruct p, p1, p2; reflexivity.
    + simpl threeInARow. cbn [nth]. rewrite IH. reflexivity.
Qed.

Lemma nth_shift1 (present : list bool) (k : nat) :
  nth k (false :: present) false
  = (1 <=? k)%nat && nth (k - 1) present false.
Proof.
  destruct k as [|k]; [reflexivity|].
  simpl. rewrite Nat.sub_0_r. reflexivity.
Qed.

Lemma nth_shift2 (present : list bool) (k : nat) :
  nth k (false :: false :: present) false
  = (2 <=? k)%nat && nth (k - 2) present false.
Proof.
  destruct k as [|[|k]]; [reflexivity|reflexivity|].
  simpl. rewrite Nat.sub_0_r. reflexivity.
Qed.

Lemma detected_at (present : list bool) (k : nat) :
  nth k (threeInARow false false present) false = true
  <-> (2 <= k)%nat
      /\ nth (k - 2) present false = true
      /\ nth (k - 1) present false = true
      /\ nth k present false = true.
Proof.
  rewrite threeInARow_nth, nth_shift1, nth_shift2.
  rewrite !andb_true_iff, !Nat.leb_le. intuition lia.
Qed.

Lemma isStartEndLineDetected_reset (values : list Z) (s : DrivingState) :
  startEndLineCondition values = false ->
  valueOf (isStartEndLineDetected values s) = false
  /\ m_startEndLineDebounce (stateOf (isStartEndLineDetected values s)) = 0.
Proof.
  intros H. unfold isStartEndLineDetected. rewrite H. split; reflexivity.
Qed.

(** C4.  The detector is run from a debounce counter of 0 over the
    sensor arrays of consecutive ticks.  It reports a crossing at tick
    k exactly when k is at least the third tick and the two outermost
    channels and the average of the interior channels are at or above
    the threshold in the ticks k-2, k-1 and k.  So a tick in which the
    condition does not hold never reports; two matching ticks followed
    by a non-matching one report nothing; in a run of matching ticks
    the answer is true from the third tick on; and a non-matching tick
    sets the counter to 0 whatever it was. *)
Theorem start_end_line_debounce :
  forall (readings : list (list Z)) (s : DrivingState),
    m_startEndLineDebounce s = 0 ->
    forallb sensorArray readings = true ->
    let present := map crossingPresent readings in
    let answers := fst (detectRun readings s) in
    (forall k : nat,
        nth k answers false = true
        <-> (2 <= k)%nat
            /\ nth (k - 2) present false = true
            /\ nth (k - 1) present false = true
            /\ nth k present false = true)
    /\ (firstn 3 present = [true; true; false] ->
         firstn 3 answers = [false; false; false])
    /\ (forall k : nat,
          (k < length readings)%nat ->
          (forall j : nat, (j <= k)%nat -> nth j present false = true) ->
          nth k answers false = (2 <=? k)%nat)
    /\ (forall (values : list Z) (s' : DrivingState),
          sensorArray values = true ->
          crossingPresent values = false ->
          valueOf (isStartEndLineDetected values s') = false
          /\ m_startEndLineDebounce
               (stateOf (isStartEndLineDetected values s')) = 0).
Proof.
  intros readings s Hzero Hwf present answers.
  assert (Hans : answers = threeInARow false false present).
  { subst answers present.
    rewrite (detectRun_threeInARow readings s false false)
      by (left; split; [assumption|reflexivity]).
    f_equal. apply map_ext_in. intros v Hv.
    apply startEndLineCondition_crossingPresent.
    rewrite forallb_forall in Hwf. apply Hwf. assumption. }
  rewrite Hans. clear Hans.
  split; [intros k; apply detected_at|].
  split.
  { destruct present as [|p0 [|p1 [|p2 rest]]]; simpl; try discriminate.
    intros H. injection H as -> -> ->. reflexivity. }
  split.
  { intros k Hk Hall.
    destruct (2 <=? k)%nat eqn:E.
    - apply detected_at. apply Nat.leb_le in E.
      repeat split; try assumption; apply Hall; lia.
    - apply not_true_is_false. rewrite detected_at.
      apply Nat.leb_gt in E. lia. }
  intros values s' Hv Hp. apply isStartEndLineDetected_reset.
  rewrite startEndLineCondition_crossingPresent; assumption.
Qed.

(** *** Entry *)

Lemma timer_armed_with_zero_fires (start now : Z) :
  SimpleTimer.isTimeout (SimpleTimer.start 0 start) now = true.
Proof.
  unfold SimpleTimer.isTimeout, SimpleTimer.getCurrentDuration, uint32. simpl.
  apply Z.leb_le. apply Z.mod_pos_bound. lia.
Qed.

(** What [entry] establishes, for every prior state: line status, track
    status, the two timers, the top speed and the cleared filter.  The
    debounce counter is not among the members it writes. *)
Lemma entry_post_state (env : Env) (s : DrivingState) :
  let s' := stateOf (entry env s) in
  m_lineStatus s' = LINE_STATUS_FIND_START_LINE
  /\ m_trackStatus s' = TRACK_STATUS_ON_TRACK
  /\ m_observationTimer s'
     = SimpleTimer.start OBSERVATION_DURATION (millis env)
  /\ (forall now : Z, SimpleTimer.isTimeout (m_pidProcessTime s') now = true)
  /\ m_topSpeed s' = int16 (topSpeed (getParameterSet env))
  /\ In PosMovAvg_clear (traceOf (entry env s))
  /\ m_startEndLineDebounce s' = m_startEndLineDebounce s.
Proof.
  simpl. repeat split; try reflexivity.
  - intros now. apply timer_armed_with_zero_fires.
  - simpl. auto.
Qed.

(** ** Further properties of a tick and of a lap attempt *)

Ltac tick_cases s env :=
  destruct s as [ot lt pt top ls ts db]; simpl in *;
  destruct ts;
  [destruct (getSensorValues (lineSensors env))
  |destruct (getSensorValues (lineSensors env))|];
  destruct ls.

Ltac in_cases H :=
  simpl in H;
  repeat match type of H with
         | _ \/ _ => destruct H as [H|H]
         end;
  try discriminate H; try contradiction.

(** X1.  A tick that starts with the track status finished changes no
    member at all and makes two calls, the filter write and the request
    to leave for the ready state: no drive command, no sound, and no
    observation check even when the timer has elapsed.  So finished is
    kept over any number of ticks. *)
Theorem finished_is_terminal :
  (forall (env : Env) (s : DrivingState),
      m_trackStatus s = TRACK_STATUS_FINISHED ->
      process env s
      = (tt, s, [PosMovAvg_write (readLine (lineSensors env));
                 StateMachine_setState_ReadyState]))
  /\ (forall (envs : list Env) (s : DrivingState),
        m_trackStatus s = TRACK_STATUS_FINISHED ->
        fst (run envs s) = s).
Proof.
  assert (H1 : forall env s, m_trackStatus s = TRACK_STATUS_FINISHED ->
             process env s
             = (tt, s, [PosMovAvg_write (readLine (lineSensors env));
                        StateMachine_setState_ReadyState])).
  { intros env s H. unfold_driving. simpl. rewrite H. simpl. rewrite H.
    reflexivity. }
  split; [exact H1|].
  induction envs as [|env envs IH]; intros s H; simpl; [reflexivity|].
  rewrite (H1 env s H). unfold stateOf. simpl.
  specialize (IH s H). destruct (run envs s) as [s' trs]. exact IH.
Qed.

(** X2.  [process] asks the outer state machine to change to the ready
    state exactly in the ticks that start with the track status
    finished: the tick that finishes the lap does not ask for it yet. *)
Theorem ready_state_requested_iff_finished :
  forall (env : Env) (s : DrivingState),
    In StateMachine_setState_ReadyState (traceOf (process env s))
    <-> m_trackStatus s = TRACK_STATUS_FINISHED.
Proof.
  intros env s. unfold_driving. unfold traceOf.
  tick_cases s env; crush_tick;
    (split; [intros H; in_cases H; try reflexivity
            |intros H; try discriminate H; simpl; auto]).
Qed.

Lemma process_debounceInRange (env : Env) (s : DrivingState) :
  debounceInRange s -> debounceInRange (stateOf (process env s)).
Proof.
  unfold debounceInRange, DEBOUNCE_CNT.
  unfold_driving. unfold stateOf, DEBOUNCE_CNT, uint8.
  tick_cases s env; crush_tick; intros H; try lia;
    repeat match goal with
           | E : (_ >? _) = true |- _ => apply Z.gtb_lt in E
           end;
    try (rewrite Z.mod_small by lia); lia.
Qed.

(** X3.  A debounce counter between 0 and 3 stays between 0 and 3 over
    every tick, over every lap attempt, and over [entry] and [exit]; the
    uint8_t increment never wraps. *)
Theorem debounce_counter_stays_in_range :
  (forall (env : Env) (s : DrivingState),
      debounceInRange s -> debounceInRange (stateOf (process env s)))
  /\ (forall (envs : list Env) (s : DrivingState),
        debounceInRange s -> debounceInRange (fst (run envs s)))
  /\ (forall (env : Env) (s : DrivingState),
        debounceInRange s ->
        debounceInRange (stateOf (entry env s))
        /\ debounceInRange (stateOf (exit s))).
Proof.
  split; [exact process_debounceInRange|]. split.
  - induction envs as [|env envs IH]; intros s H; simpl; [exact H|].
    specialize (IH _ (process_debounceInRange env s H)).
    destruct (run envs (stateOf (process env s))) as [s' trs]. exact IH.
  - intros env s H. split; exact H.
Qed.

Lemma process_frame (env : Env) (s : DrivingState) :
  m_topSpeed (stateOf (process env s)) = m_topSpeed s
  /\ m_observationTimer (stateOf (process env s)) = m_observationTimer s.
Proof.
  unfold_driving. unfold stateOf.
  tick_cases s env; crush_tick; split; reflexivity.
Qed.

Lemma run_frame (envs : list Env) :
  forall s : DrivingState,
    m_topSpeed (fst (run envs s)) = m_topSpeed s
    /\ m_observationTimer (fst (run envs s)) = m_observationTimer s.
Proof.
  induction envs as [|env envs IH]; intros s; simpl; [split; reflexivity|].
  specialize (IH (stateOf (process env s))).
  destruct (run envs (stateOf (process env s))) as [s' trs]. simpl in *.
  destruct (process_frame env s) as [H1 H2].
  destruct IH as [IH1 IH2]. split; congruence.
Qed.

(** X5.  No tick changes the top speed or the observation timer: the
    deadline armed by [entry] and the speed loaded by [entry] hold for
    the whole lap attempt. *)
Theorem attempt_keeps_top_speed_and_deadline :
  forall (envs : list Env) (s : DrivingState),
    m_topSpeed (fst (run envs s)) = m_topSpeed s
    /\ m_observationTimer (fst (run envs s)) = m_observationTimer s.
Proof.
  intros envs s. apply run_frame.
Qed.

Lemma process_withinTopSpeed (env : Env) (s : DrivingState) :
  0 <= m_topSpeed s ->
  Forall (withinTopSpeed (m_topSpeed s)) (traceOf (process env s)).
Proof.
  intros Htop.
  pose proof (constrain_range
                (int16 (m_topSpeed s - int16 (pidCtrl_calculate env)))
                (m_topSpeed s) Htop) as HL.
  pose proof (constrain_range
                (int16 (m_topSpeed s + int16 (pidCtrl_calculate env)))
                (m_topSpeed s) Htop) as HR.
  unfold_driving. unfold traceOf.
  tick_cases s env; crush_tick;
    repeat (apply Forall_cons; [simpl; try exact I; try lia|]);
    apply Forall_nil.
Qed.

(** X4.  With a top speed of at least 0, every drive command issued in
    any tick of a lap attempt has both wheel speeds between 0 and the
    top speed: the stop, the straight search and the steering alike. *)
Theorem drive_commands_within_top_speed :
  forall (envs : list Env) (s : DrivingState),
    0 <= m_topSpeed s ->
    Forall (Forall (withinTopSpeed (m_topSpeed s))) (snd (run envs s)).
Proof.
  induction envs as [|env envs IH]; intros s Htop; simpl; [constructor|].
  specialize (IH (stateOf (process env s))).
  destruct (process_frame env s) as [Hts _]. rewrite Hts in IH.
  specialize (IH Htop).
  destruct (run envs (stateOf (process env s))) as [s' trs]. simpl in *.
  constructor; [apply process_withinTopSpeed; assumption|exact IH].
Qed.

(** X6.  A tick that starts on track with a sensor array and whose gap
    test on the filtered position is true only loses the track: the
    switch sets the track status to lost, clears the mileage and
    switches the LED on; it does not evaluate the start/end-line
    detector (line status and debounce counter stay), does not steer and
    issues no drive command.  When the observation timer has not elapsed
    that is the whole tick. *)
Theorem filtered_gap_loses_track :
  forall (env : Env) (values : list Z) (s : DrivingState),
    m_trackStatus s = TRACK_STATUS_ON_TRACK ->
    getSensorValues (lineSensors env) = Some values ->
    isTrackGapDetected (lineSensors env) (posMovAvg_getResult env) = true ->
    dispatch env (readLine (lineSensors env)) s
    = (tt, set_trackStatus TRACK_STATUS_LOST s,
       [Odometry_clearMileage; YellowLed_enable true])
    /\ (SimpleTimer.isTimeout (m_observationTimer s) (millis env) = false ->
        process env s
        = (tt, set_trackStatus TRACK_STATUS_LOST s,
           [PosMovAvg_write (readLine (lineSensors env));
            Odometry_clearMileage; YellowLed_enable true])).
Proof.
  intros env values s Hts Hv Hgap.
  assert (Hd : dispatch env (readLine (lineSensors env)) s
               = (tt, set_trackStatus TRACK_STATUS_LOST s,
                  [Odometry_clearMileage; YellowLed_enable true])).
  { unfold dispatch, processOnTrack. unfold_m. simpl.
    rewrite Hts, Hv, Hgap. reflexivity. }
  split; [exact Hd|].
  intros Hto. rewrite process_unfold. rewrite Hd.
  unfold stateOf, traceOf. simpl.
  rewrite observationCutoff_idle by (right; exact Hto).
  reflexivity.
Qed.

(** X8.  A tick that starts on track while the end line is looked for,
    with no gap on the filtered position, the crossing condition true
    and a debounce counter of at least 2: the tick stops the drive,
    beeps, sets the track status to finished and hands the elapsed lap
    time to the ready state, in that order; it does not steer and the
    observation check adds nothing, elapsed or not. *)
Theorem end_line_finishes_lap :
  forall (env : Env) (values : list Z) (s : DrivingState),
    m_trackStatus s = TRACK_STATUS_ON_TRACK ->
    m_lineStatus s = LINE_STATUS_FIND_END_LINE ->
    getSensorValues (lineSensors env) = Some values ->
    isTrackGapDetected (lineSensors env) (posMovAvg_getResult env) = false ->
    startEndLineCondition values = true ->
    2 <= m_startEndLineDebounce s <= 3 ->
    m_trackStatus (stateOf (process env s)) = TRACK_STATUS_FINISHED
    /\ m_startEndLineDebounce (stateOf (process env s)) = 3
    /\ traceOf (process env s)
       = [PosMovAvg_write (readLine (lineSensors env));
          DiffDrive_setLinearSpeed 0 0;
          Sound_playBeep;
          ReadyState_setLapTime
            (SimpleTimer.getCurrentDuration (m_lapTime s) (millis env))].
Proof.
  intros env values s Hts Hls Hv Hgap Hcond Hdb.
  assert (Hc : m_startEndLineDebounce s = 2 \/ m_startEndLineDebounce s = 3)
    by lia.
  unfold_driving. unfold stateOf, traceOf, DEBOUNCE_CNT, uint8.
  destruct s as [ot lt pt top ls ts db]; simpl in *.
  subst ts ls. rewrite Hv, Hgap. simpl. rewrite Hcond.
  destruct Hc as [-> | ->]; simpl; repeat split; reflexivity.
Qed.

Lemma start_line_tick_starts_lap_timer (env : Env) (s : DrivingState) :
  m_lineStatus s = LINE_STATUS_FIND_START_LINE ->
  m_lineStatus (stateOf (process env s)) = LINE_STATUS_START_LINE_DETECTED ->
  m_lapTime (stateOf (process env s)) = SimpleTimer.start 0 (millis env).
Proof.
  unfold_driving. unfold stateOf.
  tick_cases s env; crush_tick; intros H1 H2;
    try discriminate H1; try discriminate H2; reflexivity.
Qed.

Lemma later_tick_keeps_lap_timer (env : Env) (s : DrivingState) :
  m_lineStatus s <> LINE_STATUS_FIND_START_LINE ->
  m_lapTime (stateOf (process env s)) = m_lapTime s
  /\ m_lineStatus (stateOf (process env s)) <> LINE_STATUS_FIND_START_LINE.
Proof.
  unfold_driving. unfold stateOf.
  tick_cases s env; crush_tick; intros H; try congruence;
    split; try reflexivity; discriminate.
Qed.

Lemma later_ticks_keep_lap_timer (envs : list Env) :
  forall s : DrivingState,
    m_lineStatus s <> LINE_STATUS_FIND_START_LINE ->
    m_lapTime (fst (run envs s)) = m_lapTime s.
Proof.
  induction envs as [|env envs IH]; intros s H; simpl; [reflexivity|].
  destruct (later_tick_keeps_lap_timer env s H) as [H1 H2].
  specialize (IH _ H2).
  destruct (run envs (stateOf (process env s))) as [s' trs]. simpl in *.
  congruence.
Qed.

Lemma reported_lap_time (env : Env) (s : DrivingState) (d : Z) :
  In (ReadyState_setLapTime d) (traceOf (process env s)) ->
  d = SimpleTimer.getCurrentDuration (m_lapTime s) (millis env).
Proof.
  unfold_driving. unfold traceOf.
  tick_cases s env; crush_tick; intros H; in_cases H;
    injection H as <-; reflexivity.
Qed.

(** X7.  The lap time handed to the ready state is the clock difference,
    modulo 2^32, between the tick that reports it and the tick in which
    the start line was detected, whatever ticks lie between the two. *)
Theorem lap_time_is_clock_difference :
  forall (startTick endTick : Env) (between : list Env) (s : DrivingState)
         (d : Z),
    m_lineStatus s = LINE_STATUS_FIND_START_LINE ->
    m_lineStatus (stateOf (process startTick s))
    = LINE_STATUS_START_LINE_DETECTED ->
    In (ReadyState_setLapTime d)
       (traceOf (process endTick
                   (fst (run between (stateOf (process startTick s)))))) ->
    d = uint32 (millis endTick - millis startTick).
Proof.
  intros startTick endTick between s d Hfind Hdet Hin.
  apply reported_lap_time in Hin. subst d.
  rewrite later_ticks_keep_lap_timer by (rewrite Hdet; discriminate).
  rewrite (start_line_tick_starts_lap_timer startTick s Hfind Hdet).
  reflexivity.
Qed.

(** X9.  A tick in which the alarm is played ends with the track status
    finished, and the last drive command of that tick is the stop. *)
Theorem alarm_means_lap_aborted :
  forall (env : Env) (s : DrivingState),
    In Sound_playAlarm (traceOf (process env s)) ->
    m_trackStatus (stateOf (process env s)) = TRACK_STATUS_FINISHED
    /\ last (driveCommands (traceOf (process env s))) Sound_playAlarm
       = stopCommand.
Proof.
  intros env s. unfold_driving. unfold stateOf, traceOf, driveCommands.
  tick_cases s env; crush_tick; intros H; in_cases H;
    split; reflexivity.
Qed.

Lemma process_steering (env : Env) (s : DrivingState) :
  let r := process env s in
  (steeringCount (traceOf r) <= 1)%nat
  /\ (steeringCount (traceOf r) = 1%nat ->
      m_trackStatus s = TRACK_STATUS_ON_TRACK
      /\ SimpleTimer.isTimeout (m_pidProcessTime s) (millis env) = true
      /\ m_pidProcessTime (stateOf r)
         = SimpleTimer.start PID_PROCESS_PERIOD (millis env))
  /\ (steeringCount (traceOf r) = 0%nat ->
      m_pidProcessTime (stateOf r) = m_pidProcessTime s).
Proof.
  unfold_driving. unfold stateOf, traceOf, steeringCount.
  tick_cases s env; crush_tick;
    (split; [lia|]); split; intros H; try discriminate H;
    repeat split; reflexivity.
Qed.

(** X10.  A tick steers at most once, and only when it starts on track
    with the PID interval elapsed.  A tick that steers re-arms the PID
    interval timer with PID_PROCESS_PERIOD at the clock value of the
    tick; a tick that does not steer leaves that timer as it is. *)
Theorem steering_once_per_interval :
  forall (env : Env) (s : DrivingState),
    let r := process env s in
    (steeringCount (traceOf r) <= 1)%nat
    /\ (steeringCount (traceOf r) = 1%nat ->
        m_trackStatus s = TRACK_STATUS_ON_TRACK
        /\ SimpleTimer.isTimeout (m_pidProcessTime s) (millis env) = true
        /\ m_pidProcessTime (stateOf r)
           = SimpleTimer.start PID_PROCESS_PERIOD (millis env))
    /\ (steeringCount (traceOf r) = 0%nat ->
        m_pidProcessTime (stateOf r) = m_pidProcessTime s).
Proof.
  intros env s. apply process_steering.
Qed.

Lemma steering_means_count (env : Env) (s : DrivingState) (sp pv : Z) :
  In (PidCtrl_calculate sp pv) (traceOf (process env s)) ->
  steeringCount (traceOf (process env s)) = 1%nat.
Proof.
  unfold_driving. unfold traceOf, steeringCount.
  tick_cases s env; crush_tick; intros H; in_cases H; reflexivity.
Qed.

Lemma no_steering_before_interval (env : Env) (s : DrivingState) (sp pv : Z) :
  SimpleTimer.isTimeout (m_pidProcessTime s) (millis env) = false ->
  ~ In (PidCtrl_calculate sp pv) (traceOf (process env s)).
Proof.
  intros Hto Hin.
  destruct (process_steering env s) as (_ & H1 & _).
  destruct (H1 (steering_means_count env s sp pv Hin)) as (_ & H & _).
  congruence.
Qed.

(** X11.  After a tick that steers, a next tick whose clock value is
    less than PID_PROCESS_PERIOD later does not steer. *)
Theorem steering_is_rate_limited :
  forall (env env' : Env) (s : DrivingState) (sp pv sp' pv' : Z),
    In (PidCtrl_calculate sp pv) (traceOf (process env s)) ->
    0 <= millis env' - millis env < PID_PROCESS_PERIOD ->
    ~ In (PidCtrl_calculate sp' pv')
         (traceOf (process env' (stateOf (process env s)))).
Proof.
  intros env env' s sp pv sp' pv' Hin Hclock.
  apply no_steering_before_interval.
  destruct (process_steering env s) as (_ & H1 & _).
  destruct (H1 (steering_means_count env s sp pv Hin)) as (_ & _ & ->).
  unfold SimpleTimer.isTimeout, SimpleTimer.getCurrentDuration, uint32.
  simpl. apply Z.leb_gt.
  pose proof (Z.mod_le (millis env' - millis env) 4294967296
                ltac:(lia) ltac:(lia)).
  lia.
Qed.

Lemma on_track_tick_steers (env : Env) (values : list Z) (s : DrivingState) :
  m_trackStatus s = TRACK_STATUS_ON_TRACK ->
  m_lineStatus s = LINE_STATUS_FIND_START_LINE ->
  SimpleTimer.isTimeout (m_pidProcessTime s) (millis env) = true ->
  getSensorValues (lineSensors env) = Some values ->
  isTrackGapDetected (lineSensors env) (posMovAvg_getResult env) = false ->
  In (PidCtrl_calculate (getSensorValueMax (lineSensors env) * 2)
        (readLine (lineSensors env)))
     (traceOf (process env s)).
Proof.
  intros Hts Hls Hto Hv Hgap.
  unfold_driving. unfold traceOf.
  destruct s as [ot lt pt top ls ts db]; simpl in *.
  subst ts ls. rewrite Hv, Hgap. simpl.
  crush_tick; try discriminate Hto; auto 6.
Qed.

(** X12.  The first tick after [entry] steers whenever it has a sensor
    array and no gap on the filtered position, whatever the state before
    [entry] was: the PID interval timer is armed to fire at once, and a
    lap cannot be finished in its first tick.  The setpoint is twice the
    channel maximum and the process variable the raw position. *)
Theorem first_tick_after_entry_steers :
  forall (entryEnv env : Env) (values : list Z) (s : DrivingState),
    getSensorValues (lineSensors env) = Some values ->
    isTrackGapDetected (lineSensors env) (posMovAvg_getResult env) = false ->
    In (PidCtrl_calculate (getSensorValueMax (lineSensors env) * 2)
          (readLine (lineSensors env)))
       (traceOf (process env (stateOf (entry entryEnv s)))).
Proof.
  intros entryEnv env values s Hv Hgap.
  destruct (entry_post_state entryEnv s) as (Hls & Hts & _ & Hfire & _).
  apply (on_track_tick_steers env values); auto.
Qed.

Lemma process_ledShowsLost (env : Env) (s : DrivingState) (led : bool) :
  ledShowsLost s led ->
  ledShowsLost (stateOf (process env s))
    (ledAfter led (traceOf (process env s))).
Proof.
  unfold ledShowsLost.
  unfold_driving. unfold stateOf, traceOf.
  tick_cases s env; crush_tick; intros [H1 H2];
    split; intros H; try discriminate H; try reflexivity; auto.
Qed.

(** X13.  If the yellow LED is on when the track is lost and off when
    on track, it is so again after every tick, and hence after every lap
    attempt: it is switched on when the track is lost and off when the
    line is found again.  [exit] leaves it off. *)
Theorem led_shows_lost_track :
  (forall (envs : list Env) (s : DrivingState) (led : bool),
      ledShowsLost s led ->
      ledShowsLost (fst (run envs s))
        (ledAfter led (concat (snd (run envs s)))))
  /\ (forall (s : DrivingState) (led : bool),
        ledAfter led (traceOf (exit s)) = false).
Proof.
  split; [|reflexivity].
  assert (Happ : forall tr1 tr2 led,
             ledAfter led (tr1 ++ tr2) = ledAfter (ledAfter led tr1) tr2).
  { induction tr1 as [|c tr1 IH]; intros tr2 led; [reflexivity|].
    destruct c; simpl; apply IH. }
  induction envs as [|env envs IH]; intros s led H; simpl; [exact H|].
  specialize (IH _ _ (process_ledShowsLost env s led H)).
  destruct (run envs (stateOf (process env s))) as [s' trs]. simpl in *.
  rewrite Happ. exact IH.
Qed.

Lemma process_clearMileageCount (env : Env) (s : DrivingState) :
  clearMileageCount (traceOf (process env s)) = countOf (onTrackToLost env s).
Proof.
  unfold onTrackToLost, dispatchedStatus.
  unfold_driving. unfold stateOf, traceOf, clearMileageCount.
  tick_cases s env; crush_tick; reflexivity.
Qed.

(** X14.  The mileage is cleared once in a tick whose [switch] takes the
    track status from on track to lost, and not at all in any other
    tick; such a tick is one that starts on track, has a sensor array,
    and whose gap test on the filtered position is true. *)
Theorem mileage_cleared_exactly_on_losing_track :
  forall (env : Env) (s : DrivingState),
    clearMileageCount (traceOf (process env s))
    = countOf (onTrackToLost env s)
    /\ (onTrackToLost env s = true
        <-> m_trackStatus s = TRACK_STATUS_ON_TRACK
            /\ getSensorValues (lineSensors env) <> None
            /\ isTrackGapDetected (lineSensors env)
                 (posMovAvg_getResult env) = true).
Proof.
  intros env s. split; [apply process_clearMileageCount|].
  unfold onTrackToLost, dispatchedStatus.
  unfold_driving. unfold stateOf.
  tick_cases s env; crush_tick;
    (split; [intros; try discriminate | intros (? & ? & ?)]);
    repeat split; congruence.
Qed.

(** X15.  A tick without a sensor array that does not start finished
    feeds the filter and nothing else when the observation timer has not
    elapsed: no member changes and no drive command is issued.  When the
    timer has elapsed the observation check still ends the attempt:
    finished, stop, alarm. *)
Theorem tick_without_sensor_array :
  forall (env : Env) (s : DrivingState),
    m_trackStatus s <> TRACK_STATUS_FINISHED ->
    getSensorValues (lineSensors env) = None ->
    (SimpleTimer.isTimeout (m_observationTimer s) (millis env) = false ->
     process env s
     = (tt, s, [PosMovAvg_write (readLine (lineSensors env))]))
    /\ (SimpleTimer.isTimeout (m_observationTimer s) (millis env) = true ->
        process env s
        = (tt, set_trackStatus TRACK_STATUS_FINISHED s,
           [PosMovAvg_write (readLine (lineSensors env));
            stopCommand; Sound_playAlarm])).
Proof.
  intros env s Hts Hv.
  assert (Hd : dispatch env (readLine (lineSensors env)) s = (tt, s, [])).
  { unfold dispatch, processOnTrack, processTrackLost. unfold_m. simpl.
    rewrite Hv. destruct (m_trackStatus s); try congruence; reflexivity. }
  split; intros Hto; rewrite process_unfold, Hd; unfold stateOf, traceOf;
    simpl.
  - rewrite observationCutoff_idle by (right; exact Hto). reflexivity.
  - rewrite observationCutoff_fires by assumption. reflexivity.
Qed.

(** X16.  With fewer than two line sensors POS_MAX is at most 0, and the
    gap test answers true for every position: such a robot never stays
    on track. *)
Theorem gap_everywhere_below_two_sensors :
  forall (sensors : ILineSensors) (p : Z),
    0 <= getNumLineSensors sensors <= 1 ->
    isTrackGapDetected sensors p = true.
Proof.
  intros sensors p Hn. rewrite isTrackGapDetected_unfold.
  assert (Hmax : int16 ((getNumLineSensors sensors - 1) * 1000) <= 0).
  { rewrite int16_id by (unfold is_int16; lia). lia. }
  apply orb_true_iff. rewrite Z.geb_le, Z.leb_le. lia.
Qed.

(** X17.  Whenever topSpeed - differential and topSpeed + differential
    are representable as int16_t and the top speed is at least 0, one
    wheel is commanded to the top speed and the other to the top speed
    minus the magnitude of the differential, or to 0 when that is
    negative. *)
Theorem one_wheel_at_top_speed :
  forall (env : Env) (position : Z) (s : DrivingState) (l r : Z),
    0 <= m_topSpeed s ->
    is_int16 (m_topSpeed s - int16 (pidCtrl_calculate env)) ->
    is_int16 (m_topSpeed s + int16 (pidCtrl_calculate env)) ->
    driveCommands (traceOf (adaptDriving env position s))
    = [DiffDrive_setLinearSpeed l r] ->
    Z.max l r = m_topSpeed s
    /\ Z.min l r
       = Z.max 0 (m_topSpeed s - Z.abs (int16 (pidCtrl_calculate env))).
Proof.
  intros env position s l r Htop Hl Hr Hcmd.
  rewrite adaptDriving_unfold in Hcmd. simpl in Hcmd.
  injection Hcmd as <- <-.
  unfold commandedLeft, commandedRight.
  rewrite (int16_id _ Hl), (int16_id _ Hr).
  unfold constrain.
  repeat match goal with
         | |- context [?a <? ?b] => destruct (Z.ltb_spec a b)
         | |- context [?a >? ?b] =>
             destruct (a >? b) eqn:?;
             [match goal with E : (a >? b) = true |- _ =>
                apply Z.gtb_lt in E end
             |match goal with E : (a >? b) = false |- _ =>
                rewrite Z.gtb_ltb in E; apply Z.ltb_ge in E end]
         end; lia.
Qed.

Lemma elapsed_tick_ends_finished (env : Env) (s : DrivingState) :
  SimpleTimer.isTimeout (m_observationTimer s) (millis env) = true ->
  m_trackStatus (stateOf (process env s)) = TRACK_STATUS_FINISHED.
Proof.
  intros Hto. rewrite process_unfold. unfold stateOf at 1. simpl.
  pose proof (dispatch_observationTimer env (readLine (lineSensors env)) s)
    as Hot.
  set (s1 := stateOf (dispatch env (readLine (lineSensors env)) s)) in *.
  destruct (m_trackStatus s1) eqn:Hd.
  1,2: rewrite observationCutoff_fires by (rewrite ?Hot; congruence);
       reflexivity.
  rewrite observationCutoff_idle by (left; assumption). exact Hd.
Qed.

(** X22.  The observation deadline holds across a whole lap attempt:
    after [entry] at clock value t0 and any ticks whatever, a tick whose
    clock value is at least OBSERVATION_DURATION (and less than 2^32)
    later than t0 ends with the track status finished. *)
Theorem observation_deadline_ends_attempt :
  forall (entryEnv env : Env) (envs : list Env) (s : DrivingState),
    0 <= OBSERVATION_DURATION ->
    OBSERVATION_DURATION <= millis env - millis entryEnv < 4294967296 ->
    m_trackStatus
      (stateOf (process env (fst (run envs (stateOf (entry entryEnv s))))))
    = TRACK_STATUS_FINISHED.
Proof.
  intros entryEnv env envs s Hdur Hclock.
  apply elapsed_tick_ends_finished.
  rewrite (proj2 (run_frame envs _)).
  destruct (entry_post_state entryEnv s) as (_ & _ & -> & _).
  unfold SimpleTimer.isTimeout, SimpleTimer.getCurrentDuration, uint32.
  simpl. apply Z.leb_le. rewrite Z.mod_small by lia. lia.
Qed.

(** X23.  [entry] forgets the previous attempt except for the lap timer
    and the debounce counter: two objects that agree on these two
    members are in the same state after [entry], with the same calls
    made, whatever their timers, statuses and top speed were. *)
Theorem entry_forgets_previous_attempt :
  forall (env : Env) (s s' : DrivingState),
    m_lapTime s = m_lapTime s' ->
    m_startEndLineDebounce s = m_startEndLineDebounce s' ->
    entry env s = entry env s'.
Proof.
  intros env s s' Hlap Hdb.
  destruct s as [ot lt pt top ls ts db].
  destruct s' as [ot' lt' pt' top' ls' ts' db'].
  simpl in *. subst lt' db'. reflexivity.
Qed.

End DrivingState.

(** ** Concrete runs *)

Lemma entered_by_entry :
  stateOf (entry EXAMPLE_OBSERVATION_DURATION EXAMPLE_PID_PROCESS_PERIOD
             (entryEnv 0 200 400) constructed)
  = entered.
Proof. reflexivity. Qed.

(** The amended C1 at the tick [timeoutTick], right after [entry]. *)
Lemma observation_timeout_finishes_tick_witness :
  let r := process EXAMPLE_PID_PROCESS_PERIOD EXAMPLE_MAX_DISTANCE
             timeoutTick entered in
  m_trackStatus entered <> TRACK_STATUS_FINISHED
  /\ SimpleTimer.isTimeout (m_observationTimer entered) (millis timeoutTick)
     = true
  /\ m_trackStatus (stateOf r) = TRACK_STATUS_FINISHED
  /\ last (driveCommands (traceOf r)) Sound_playAlarm = stopCommand.
Proof.
  intros r.
  assert (H1 : m_trackStatus entered <> TRACK_STATUS_FINISHED)
    by (vm_compute; discriminate).
  assert (H2 : SimpleTimer.isTimeout (m_observationTimer entered)
                 (millis timeoutTick) = true)
    by (vm_compute; reflexivity).
  split; [exact H1|]. split; [exact H2|].
  destruct (observation_timeout_finishes_tick EXAMPLE_PID_PROCESS_PERIOD
              EXAMPLE_MAX_DISTANCE timeoutTick entered H1 H2) as (A & B & _).
  split; assumption.
Defined.

(** C1 as stated fails: in this tick the observation timer has elapsed
    and the track status is on track, yet the steering of the tick runs
    first and commands the wheels to 150 and 200 before the stop; the
    stop is neither the first action of the tick nor its only drive
    command. *)
Lemma cutoff_follows_steering :
  let r := process EXAMPLE_PID_PROCESS_PERIOD EXAMPLE_MAX_DISTANCE
             timeoutTick entered in
  m_trackStatus entered <> TRACK_STATUS_FINISHED
  /\ SimpleTimer.isTimeout (m_observationTimer entered) (millis timeoutTick)
     = true
  /\ traceOf r
     = [PosMovAvg_write 2000;
        PidCtrl_calculate 2000 2000;
        DiffDrive_setLinearSpeed 150 200;
        DiffDrive_setLinearSpeed 0 0;
        Sound_playAlarm]
  /\ hd_error (traceOf r) <> Some stopCommand
  /\ driveCommands (traceOf r) <> [stopCommand].
Proof.
  intros r.
  split; [vm_compute; discriminate|].
  split; [vm_compute; reflexivity|].
  split; [vm_compute; reflexivity|].
  split; vm_compute; discriminate.
Qed.

(** The amended C3 for the five sensors of the robot. *)
Lemma isTrackGapDetected_spec_witness :
  2 <= getNumLineSensors (fiveSensors 2000 None) <= 33
  /\ (isTrackGapDetected (fiveSensors 2000 None) 4000 = true
      <-> 4000 <= 0 \/ 4000 <= 4000)
  /\ isTrackGapDetected (fiveSensors 2000 None) 0 = true
  /\ isTrackGapDetected (fiveSensors 2000 None) 4000 = true
  /\ isTrackGapDetected (fiveSensors 2000 None) 2000 = false.
Proof.
  assert (H : 2 <= getNumLineSensors (fiveSensors 2000 None) <= 33)
    by (simpl; lia).
  split; [exact H|].
  exact (isTrackGapDetected_spec (fiveSensors 2000 None) 4000 H).
Defined.

(** C3 as stated fails for 34 sensors: the maximum 33000 does not fit
    int16_t, POS_MAX wraps to -32536, and the gap test answers true at
    the midpoint 16500. *)
Lemma gap_test_wraps_for_34_sensors :
  let sensors := mkLineSensors 16500 None 34 1000 in
  let max := (getNumLineSensors sensors - 1) * 1000 in
  2 <= getNumLineSensors sensors
  /\ max = 33000
  /\ isTrackGapDetected sensors (max / 2) = true
  /\ ~ (max / 2 <= 0 \/ max <= max / 2).
Proof.
  simpl. split; [lia|]. split; [reflexivity|].
  split; [vm_compute; reflexivity|].
  change (33000 / 2) with 16500. lia.
Qed.

(** C8 on three ticks of a lost track, one per branch. *)
Lemma processTrackLost_spec_witness :
  isTrackGapDetected (lineSensors backOnTrackTick) 2000 = false
  /\ m_trackStatus
       (stateOf (processTrackLost EXAMPLE_MAX_DISTANCE backOnTrackTick 2000
                   (Some onLine) enteredLost))
     = TRACK_STATUS_ON_TRACK
  /\ EXAMPLE_MAX_DISTANCE < getMileageCenter searchedTooFarTick
  /\ traceOf (processTrackLost EXAMPLE_MAX_DISTANCE searchedTooFarTick 0
                (Some offLine) enteredLost)
     = [DiffDrive_setLinearSpeed 0 0; Sound_playAlarm]
  /\ getMileageCenter searchingTick <= EXAMPLE_MAX_DISTANCE
  /\ traceOf (processTrackLost EXAMPLE_MAX_DISTANCE searchingTick 0
                (Some offLine) enteredLost)
     = [DiffDrive_setLinearSpeed 200 200].
Proof.
  assert (G1 : isTrackGapDetected (lineSensors backOnTrackTick) 2000 = false)
    by reflexivity.
  assert (G2 : isTrackGapDetected (lineSensors searchedTooFarTick) 0 = true)
    by reflexivity.
  assert (G3 : isTrackGapDetected (lineSensors searchingTick) 0 = true)
    by reflexivity.
  assert (D2 : EXAMPLE_MAX_DISTANCE < getMileageCenter searchedTooFarTick)
    by (vm_compute; reflexivity).
  assert (D3 : getMileageCenter searchingTick <= EXAMPLE_MAX_DISTANCE)
    by (vm_compute; discriminate).
  split; [exact G1|]. split.
  { destruct (processTrackLost_spec EXAMPLE_PID_PROCESS_PERIOD
                EXAMPLE_MAX_DISTANCE backOnTrackTick 2000
                onLine enteredLost) as (A & _).
    exact (proj1 (A G1)). }
  split; [exact D2|]. split.
  { destruct (processTrackLost_spec EXAMPLE_PID_PROCESS_PERIOD
                EXAMPLE_MAX_DISTANCE searchedTooFarTick 0
                offLine enteredLost) as (_ & B & _).
    exact (proj2 (B G2 D2)). }
  split; [exact D3|].
  destruct (processTrackLost_spec EXAMPLE_PID_PROCESS_PERIOD
                EXAMPLE_MAX_DISTANCE searchingTick 0
              offLine enteredLost) as (_ & _ & C & _).
  exact (proj2 (C G3 D3)).
Defined.

(** C7 on a tick that finds the line again. *)
Lemma resync_exactly_on_lost_to_on_track_witness :
  m_trackStatus enteredLost = TRACK_STATUS_LOST
  /\ getSensorValues (lineSensors backOnTrackTick) <> None
  /\ isTrackGapDetected (lineSensors backOnTrackTick)
       (readLine (lineSensors backOnTrackTick)) = false
  /\ lostToOnTrack EXAMPLE_PID_PROCESS_PERIOD EXAMPLE_MAX_DISTANCE
       backOnTrackTick enteredLost = true
  /\ resyncCount
       (traceOf (process EXAMPLE_PID_PROCESS_PERIOD EXAMPLE_MAX_DISTANCE
                   backOnTrackTick enteredLost)) = 1%nat.
Proof.
  destruct (resync_exactly_on_lost_to_on_track EXAMPLE_OBSERVATION_DURATION
              EXAMPLE_PID_PROCESS_PERIOD EXAMPLE_MAX_DISTANCE)
    as (A & B & _ & _).
  assert (H : m_trackStatus enteredLost = TRACK_STATUS_LOST
              /\ getSensorValues (lineSensors backOnTrackTick) <> None
              /\ isTrackGapDetected (lineSensors backOnTrackTick)
                   (readLine (lineSensors backOnTrackTick)) = false).
  { split; [reflexivity|]. split; [discriminate|reflexivity]. }
  destruct H as (H1 & H2 & H3).
  split; [exact H1|]. split; [exact H2|]. split; [exact H3|].
  assert (L := proj2 (B backOnTrackTick enteredLost) (conj H1 (conj H2 H3))).
  split; [exact L|].
  rewrite A, L. reflexivity.
Defined.



(** C6 at a steering tick of the five-channel robot: the setpoint is
    2000, the middle of the range 0 .. 4000. *)
Lemma adaptDriving_setpoint_witness :
  getNumLineSensors (lineSensors timeoutTick) = 5
  /\ getSensorValueMax (lineSensors timeoutTick) = 1000
  /\ positionMidpoint (lineSensors timeoutTick) = 2000
  /\ filter is_calculate (traceOf (adaptDriving timeoutTick 1500 entered))
     = [PidCtrl_calculate (positionMidpoint (lineSensors timeoutTick)) 1500]
  /\ In (PidCtrl_calculate 2000 2000)
       (traceOf (process EXAMPLE_PID_PROCESS_PERIOD EXAMPLE_MAX_DISTANCE
                   timeoutTick entered))
  /\ 2000 = positionMidpoint (lineSensors timeoutTick)
  /\ 2000 = readLine (lineSensors timeoutTick).
Proof.
  assert (Hn : getNumLineSensors (lineSensors timeoutTick) = 5)
    by reflexivity.
  assert (Hmax : getSensorValueMax (lineSensors timeoutTick) = 1000)
    by reflexivity.
  assert (I : In (PidCtrl_calculate 2000 2000)
                (traceOf (process EXAMPLE_PID_PROCESS_PERIOD
                            EXAMPLE_MAX_DISTANCE timeoutTick entered)))
    by (vm_compute; tauto).
  destruct (adaptDriving_setpoint EXAMPLE_PID_PROCESS_PERIOD
              EXAMPLE_MAX_DISTANCE timeoutTick entered Hn Hmax) as (A & B).
  split; [exact Hn|]. split; [exact Hmax|]. split; [reflexivity|].
  split; [exact (A 1500)|]. split; [exact I|].
  exact (B 2000 2000 I).
Defined.

(** C4 on three ticks on a crossing and one off it. *)
Lemma start_end_line_debounce_witness :
  m_startEndLineDebounce constructed = 0
  /\ forallb sensorArray debounceReadings = true
  /\ nth 2 (fst (detectRun debounceReadings constructed)) false = true
  /\ nth 1 (fst (detectRun debounceReadings constructed)) false = (2 <=? 1)%nat.
Proof.
  assert (H0 : m_startEndLineDebounce constructed = 0) by reflexivity.
  assert (Hwf : forallb sensorArray debounceReadings = true) by reflexivity.
  destruct (start_end_line_debounce debounceReadings constructed H0 Hwf)
    as (A & _ & C & _).
  split; [exact H0|]. split; [exact Hwf|]. split.
  - apply (proj2 (A 2%nat)).
    split; [apply le_n|]. repeat split; reflexivity.
  - apply (C 1%nat).
    + simpl. apply le_S, le_S, le_n.
    + intros j Hj. destruct j as [|[|j]]; [reflexivity|reflexivity|].
      exfalso. apply le_S_n in Hj. inversion Hj.
Defined.

(** C2, at the failing input.  A first lap attempt sees two ticks on a
    crossing and is ended by the observation timer: it leaves the
    debounce counter at 2.  [entry] for the next attempt leaves it at 2;
    the first tick of that attempt reads high on all channels once, and
    the start line is reported at once, after one matching tick instead
    of three.  From a counter of 0 the same tick reports nothing. *)
Theorem entry_leaves_debounce_counter :
  let aborted :=
    fst (run EXAMPLE_PID_PROCESS_PERIOD EXAMPLE_MAX_DISTANCE firstAttempt
           entered) in
  let reentered :=
    stateOf (entry EXAMPLE_OBSERVATION_DURATION EXAMPLE_PID_PROCESS_PERIOD
               secondEntryEnv aborted) in
  let tick := process EXAMPLE_PID_PROCESS_PERIOD EXAMPLE_MAX_DISTANCE
                glitchTick in
  m_trackStatus aborted = TRACK_STATUS_FINISHED
  /\ m_startEndLineDebounce aborted = 2
  /\ m_startEndLineDebounce reentered = 2
  /\ m_lineStatus reentered = LINE_STATUS_FIND_START_LINE
  /\ m_lineStatus (stateOf (tick reentered)) = LINE_STATUS_START_LINE_DETECTED
  /\ In Sound_playBeep (traceOf (tick reentered))
  /\ m_lineStatus (stateOf (tick (set_startEndLineDebounce 0 reentered)))
     = LINE_STATUS_FIND_START_LINE.
Proof.
  repeat split; try (vm_compute; reflexivity).
  vm_compute. tauto.
Qed.

(** ** The application: properties of setup and loop *)

Lemma loop_cases (P : Z) (env : App.AppEnv) (a : App.t) :
  App.loop P env a
  = (App.mk
       (if SimpleTimer.isTimeout (App.m_controlInterval a) (App.millis env)
        then SimpleTimer.restart (App.m_controlInterval a) (App.millis env)
        else App.m_controlInterval a)
       (if SimpleTimer.isTimeout (App.m_reportTimer a) (App.millis env)
        then SimpleTimer.restart (App.m_reportTimer a) (App.millis env)
        else App.m_reportTimer a)
       (App.m_serialMuxProtChannelIdCurrentVehicleData a),
     [App.SMPServer_process (App.millis env); App.Speedometer_process]
       ++ (if SimpleTimer.isTimeout (App.m_controlInterval a) (App.millis env)
           then [App.DifferentialDrive_process P; App.Odometry_process]
           else [])
       ++ (if SimpleTimer.isTimeout (App.m_reportTimer a) (App.millis env)
           then App.reportVehicleData env a
           else [])
       ++ [App.SystemStateMachine_process]).
Proof.
  unfold App.loop, App.reportVehicleData. destruct a as [ci rt id].
  destruct (App.getPosition env) as [x y]. simpl.
  destruct (SimpleTimer.isTimeout ci (App.millis env)); simpl;
    destruct (SimpleTimer.isTimeout rt (App.millis env)); reflexivity.
Qed.

(** X18.  In every iteration of [loop] the calls come in a fixed order:
    the server is processed first and the speedometer second; the
    differential drive control, when it runs, is the third call and is
    followed at once by the odometry, which runs in no other place; and
    the system state machine is stepped last, whatever ran before. *)
Theorem loop_call_order :
  forall (P : Z) (env : App.AppEnv) (a : App.t),
    let tr := snd (App.loop P env a) in
    nth_error tr 0 = Some (App.SMPServer_process (App.millis env))
    /\ nth_error tr 1 = Some App.Speedometer_process
    /\ (forall (i : nat) (p : Z),
          nth_error tr i = Some (App.DifferentialDrive_process p) ->
          i = 2%nat /\ p = P
          /\ nth_error tr 3 = Some App.Odometry_process)
    /\ (forall i : nat,
          nth_error tr i = Some App.Odometry_process ->
          i = 3%nat
          /\ nth_error tr 2 = Some (App.DifferentialDrive_process P))
    /\ last tr App.Odometry_process = App.SystemStateMachine_process.
Proof.
  intros P env a tr. subst tr. rewrite loop_cases.
  unfold App.reportVehicleData. destruct (App.getPosition env) as [x y].
  destruct (SimpleTimer.isTimeout (App.m_controlInterval a) (App.millis env));
    destruct (SimpleTimer.isTimeout (App.m_reportTimer a) (App.millis env));
    simpl; repeat split; try reflexivity;
    try (intros i p H); try (intros i H);
    do 6 (try destruct i as [|i]); simpl in H;
    try discriminate H; try (injection H as <-); try reflexivity;
    try (destruct i; discriminate H).
Qed.

Lemma loop_without_report_timer (P : Z) (env : App.AppEnv) (a : App.t) :
  SimpleTimer.isRunning (App.m_reportTimer a) = false ->
  SimpleTimer.isRunning (App.m_reportTimer (fst (App.loop P env a))) = false
  /\ filter App.is_sendData (snd (App.loop P env a)) = [].
Proof.
  intros H. rewrite loop_cases. simpl.
  assert (Hto : SimpleTimer.isTimeout (App.m_reportTimer a) (App.millis env)
                = false)
    by (unfold SimpleTimer.isTimeout; rewrite H; reflexivity).
  rewrite Hto. split; [exact H|].
  destruct (SimpleTimer.isTimeout (App.m_controlInterval a) (App.millis env));
    reflexivity.
Qed.

(** X19.  When the telemetry channel could not be created ([createChannel]
    answers 0) and the report timer was not running before [setup], no
    iteration of [loop] ever sends vehicle data, however long the
    application runs. *)
Theorem no_channel_no_telemetry :
  forall (BAUD P R : Z) (setupEnv : App.AppEnv) (a : App.t)
         (envs : list App.AppEnv),
    App.createChannel setupEnv = 0 ->
    SimpleTimer.isRunning (App.m_reportTimer a) = false ->
    Forall (fun tr => filter App.is_sendData tr = [])
      (snd (App.loops P envs (fst (App.setup BAUD P R setupEnv a)))).
Proof.
  intros BAUD P R setupEnv a envs Hch Hidle.
  assert (H0 : SimpleTimer.isRunning
                 (App.m_reportTimer (fst (App.setup BAUD P R setupEnv a)))
               = false).
  { unfold App.setup. rewrite Hch. simpl. exact Hidle. }
  generalize dependent (fst (App.setup BAUD P R setupEnv a)).
  clear Hidle Hch a.
  induction envs as [|env envs IH]; intros a H0; simpl; [constructor|].
  destruct (loop_without_report_timer P env a H0) as [H1 H2].
  destruct (App.loop P env a) as [a1 tr]. simpl in *.
  specialize (IH a1 H1).
  destruct (App.loops P envs a1) as [a2 trs]. simpl in *.
  constructor; assumption.
Qed.

Lemma timer_not_due (tm : SimpleTimer.t) (d start now : Z) :
  tm = SimpleTimer.mk true d start ->
  0 <= now - start < d ->
  SimpleTimer.isTimeout tm now = false.
Proof.
  intros -> H.
  unfold SimpleTimer.isTimeout, SimpleTimer.getCurrentDuration, uint32.
  simpl. apply Z.leb_gt.
  pose proof (Z.mod_le (now - start) 4294967296 ltac:(lia) ltac:(lia)).
  lia.
Qed.

Lemma loop_without_control (P : Z) (env : App.AppEnv) (a : App.t) :
  SimpleTimer.isTimeout (App.m_controlInterval a) (App.millis env) = false ->
  filter App.is_driveControl (snd (App.loop P env a)) = []
  /\ ~ In App.Odometry_process (snd (App.loop P env a)).
Proof.
  intros H. rewrite loop_cases. rewrite H.
  unfold App.reportVehicleData. destruct (App.getPosition env) as [x y].
  destruct (SimpleTimer.isTimeout (App.m_reportTimer a) (App.millis env));
    simpl; (split; [reflexivity|]); intros Hin;
    repeat (destruct Hin as [Hin|Hin]; [discriminate Hin|]); contradiction.
Qed.

(** X20.  The differential drive control and the odometry run at most
    once per control period: in an iteration whose clock value is less
    than DIFFERENTIAL_DRIVE_CONTROL_PERIOD after [setup], or after an
    iteration in which the control ran (its timer having that period),
    neither of the two runs. *)
Theorem drive_control_is_rate_limited :
  (forall (BAUD P R : Z) (setupEnv env : App.AppEnv) (a : App.t),
      0 <= App.millis env - App.millis setupEnv < P ->
      let tr := snd (App.loop P env (fst (App.setup BAUD P R setupEnv a))) in
      filter App.is_driveControl tr = [] /\ ~ In App.Odometry_process tr)
  /\ (forall (P : Z) (env env' : App.AppEnv) (a : App.t),
        filter App.is_driveControl (snd (App.loop P env a)) <> [] ->
        SimpleTimer.duration (App.m_controlInterval a) = P ->
        0 <= App.millis env' - App.millis env < P ->
        let tr := snd (App.loop P env' (fst (App.loop P env a))) in
        filter App.is_driveControl tr = [] /\ ~ In App.Odometry_process tr).
Proof.
  split.
  - intros BAUD P R setupEnv env a Hclock tr. subst tr.
    apply loop_without_control.
    apply (timer_not_due _ P (App.millis setupEnv)); [reflexivity|exact Hclock].
  - intros P env env' a Hran Harmed Hclock tr. subst tr.
    apply loop_without_control.
    apply (timer_not_due _ P (App.millis env)); [|exact Hclock].
    rewrite loop_cases. simpl.
    destruct (SimpleTimer.isTimeout (App.m_controlInterval a) (App.millis env))
      eqn:Hto.
    + unfold SimpleTimer.restart. rewrite Harmed. reflexivity.
    + exfalso. apply Hran.
      apply (proj1 (loop_without_control P env a Hto)).
Qed.

(** X21.  When the telemetry channel was created (a non-zero uint8_t
    id), the first iteration of [loop] whose clock value is at least
    REPORTING_PERIOD after [setup] sends one message on that channel,
    filled with the position and orientation of the odometry and the
    three speeds of the speedometer as read in that iteration. *)
Theorem telemetry_sent_after_reporting_period :
  forall (BAUD P R : Z) (setupEnv env : App.AppEnv) (a : App.t),
    0 < App.createChannel setupEnv < 256 ->
    0 <= R ->
    R <= App.millis env - App.millis setupEnv < 4294967296 ->
    filter App.is_sendData
      (snd (App.loop P env (fst (App.setup BAUD P R setupEnv a))))
    = [App.SMPServer_sendData (App.createChannel setupEnv)
         (App.mkVehicleData (fst (App.getPosition env))
            (snd (App.getPosition env)) (App.getOrientation env)
            (App.getLinearSpeedLeft env) (App.getLinearSpeedRight env)
            (App.getLinearSpeedCenter env))].
Proof.
  intros BAUD P R setupEnv env a Hid HR Hclock.
  rewrite loop_cases. unfold App.setup, uint8.
  rewrite (Z.mod_small _ _ (conj (Z.lt_le_incl _ _ (proj1 Hid)) (proj2 Hid))).
  destruct (0 =? App.createChannel setupEnv) eqn:E;
    [apply Z.eqb_eq in E; lia|].
  simpl.
  assert (Hto : SimpleTimer.isTimeout
                  (SimpleTimer.start R (App.millis setupEnv)) (App.millis env)
                = true).
  { unfold SimpleTimer.isTimeout, SimpleTimer.getCurrentDuration, uint32.
    simpl. apply Z.leb_le. rewrite Z.mod_small by lia. lia. }
  rewrite Hto. unfold App.reportVehicleData.
  destruct (App.getPosition env) as [x y]. simpl.
  destruct (SimpleTimer.isTimeout
              (SimpleTimer.start P (App.millis setupEnv)) (App.millis env));
    reflexivity.
Qed.

(** ** Concrete runs for the further properties *)

Lemma finished_is_terminal_witness :
  let s := set_trackStatus TRACK_STATUS_FINISHED entered in
  m_trackStatus s = TRACK_STATUS_FINISHED
  /\ process EXAMPLE_PID_PROCESS_PERIOD EXAMPLE_MAX_DISTANCE timeoutTick s
     = (tt, s, [PosMovAvg_write 2000; StateMachine_setState_ReadyState])
  /\ fst (run EXAMPLE_PID_PROCESS_PERIOD EXAMPLE_MAX_DISTANCE firstAttempt s)
     = s.
Proof.
  intros s.
  assert (H : m_trackStatus s = TRACK_STATUS_FINISHED) by reflexivity.
  destruct (finished_is_terminal EXAMPLE_PID_PROCESS_PERIOD
              EXAMPLE_MAX_DISTANCE) as [A B].
  split; [exact H|]. split; [exact (A timeoutTick s H)|].
  exact (B firstAttempt s H).
Defined.

Lemma debounce_counter_stays_in_range_witness :
  debounceInRange entered
  /\ debounceInRange
       (fst (run EXAMPLE_PID_PROCESS_PERIOD EXAMPLE_MAX_DISTANCE
               firstAttempt entered)).
Proof.
  assert (H : debounceInRange entered)
    by (unfold debounceInRange, DEBOUNCE_CNT; simpl; lia).
  split; [exact H|].
  destruct (debounce_counter_stays_in_range EXAMPLE_OBSERVATION_DURATION
              EXAMPLE_PID_PROCESS_PERIOD EXAMPLE_MAX_DISTANCE)
    as (_ & B & _).
  exact (B firstAttempt entered H).
Defined.

Lemma drive_commands_within_top_speed_witness :
  0 <= m_topSpeed entered
  /\ Forall (Forall (withinTopSpeed 200))
       (snd (run EXAMPLE_PID_PROCESS_PERIOD EXAMPLE_MAX_DISTANCE
               [timeoutTick] entered)).
Proof.
  assert (H : 0 <= m_topSpeed entered) by (simpl; lia).
  split; [exact H|].
  exact (drive_commands_within_top_speed EXAMPLE_PID_PROCESS_PERIOD
           EXAMPLE_MAX_DISTANCE [timeoutTick] entered H).
Defined.

Lemma filtered_gap_loses_track_witness :
  m_trackStatus entered = TRACK_STATUS_ON_TRACK
  /\ getSensorValues (lineSensors backOnTrackTick) = Some onLine
  /\ isTrackGapDetected (lineSensors backOnTrackTick)
       (posMovAvg_getResult backOnTrackTick) = true
  /\ SimpleTimer.isTimeout (m_observationTimer entered)
       (millis backOnTrackTick) = false
  /\ process EXAMPLE_PID_PROCESS_PERIOD EXAMPLE_MAX_DISTANCE
       backOnTrackTick entered
     = (tt, set_trackStatus TRACK_STATUS_LOST entered,
        [PosMovAvg_write 2000; Odometry_clearMileage; YellowLed_enable true]).
Proof.
  assert (H1 : m_trackStatus entered = TRACK_STATUS_ON_TRACK) by reflexivity.
  assert (H2 : getSensorValues (lineSensors backOnTrackTick) = Some onLine)
    by reflexivity.
  assert (H3 : isTrackGapDetected (lineSensors backOnTrackTick)
                 (posMovAvg_getResult backOnTrackTick) = true)
    by reflexivity.
  assert (H4 : SimpleTimer.isTimeout (m_observationTimer entered)
                 (millis backOnTrackTick) = false)
    by (vm_compute; reflexivity).
  repeat (split; [assumption|]).
  exact (proj2 (filtered_gap_loses_track EXAMPLE_PID_PROCESS_PERIOD
                  EXAMPLE_MAX_DISTANCE backOnTrackTick onLine entered
                  H1 H2 H3) H4).
Defined.

Lemma end_line_finishes_lap_witness :
  m_trackStatus onEndLine = TRACK_STATUS_ON_TRACK
  /\ m_lineStatus onEndLine = LINE_STATUS_FIND_END_LINE
  /\ startEndLineCondition onCrossing = true
  /\ 2 <= m_startEndLineDebounce onEndLine <= 3
  /\ m_trackStatus
       (stateOf (process EXAMPLE_PID_PROCESS_PERIOD EXAMPLE_MAX_DISTANCE
                   (crossingTickAt 140) onEndLine))
     = TRACK_STATUS_FINISHED.
Proof.
  assert (H1 : m_trackStatus onEndLine = TRACK_STATUS_ON_TRACK)
    by reflexivity.
  assert (H2 : m_lineStatus onEndLine = LINE_STATUS_FIND_END_LINE)
    by reflexivity.
  assert (H3 : getSensorValues (lineSensors (crossingTickAt 140))
               = Some onCrossing) by reflexivity.
  assert (H4 : isTrackGapDetected (lineSensors (crossingTickAt 140))
                 (posMovAvg_getResult (crossingTickAt 140)) = false)
    by reflexivity.
  assert (H5 : startEndLineCondition onCrossing = true) by reflexivity.
  assert (H6 : 2 <= m_startEndLineDebounce onEndLine <= 3)
    by (simpl; lia).
  split; [exact H1|]. split; [exact H2|]. split; [exact H5|].
  split; [exact H6|].
  exact (proj1 (end_line_finishes_lap EXAMPLE_PID_PROCESS_PERIOD
                  EXAMPLE_MAX_DISTANCE (crossingTickAt 140) onCrossing
                  onEndLine H1 H2 H3 H4 H5 H6)).
Defined.

Lemma lap_time_is_clock_difference_witness :
  m_lineStatus onStartLine = LINE_STATUS_FIND_START_LINE
  /\ In (ReadyState_setLapTime 40)
       (traceOf
          (process EXAMPLE_PID_PROCESS_PERIOD EXAMPLE_MAX_DISTANCE
             (crossingTickAt 140)
             (fst (run EXAMPLE_PID_PROCESS_PERIOD EXAMPLE_MAX_DISTANCE
                     lapTicks
                     (stateOf
                        (process EXAMPLE_PID_PROCESS_PERIOD
                           EXAMPLE_MAX_DISTANCE (crossingTickAt 100)
                           onStartLine))))))
  /\ 40 = uint32 (millis (crossingTickAt 140) - millis (crossingTickAt 100)).
Proof.
  assert (H1 : m_lineStatus onStartLine = LINE_STATUS_FIND_START_LINE)
    by reflexivity.
  assert (H2 : m_lineStatus
                 (stateOf (process EXAMPLE_PID_PROCESS_PERIOD
                             EXAMPLE_MAX_DISTANCE (crossingTickAt 100)
                             onStartLine))
               = LINE_STATUS_START_LINE_DETECTED)
    by (vm_compute; reflexivity).
  assert (H3 : In (ReadyState_setLapTime 40)
                 (traceOf
                    (process EXAMPLE_PID_PROCESS_PERIOD EXAMPLE_MAX_DISTANCE
                       (crossingTickAt 140)
                       (fst (run EXAMPLE_PID_PROCESS_PERIOD
                               EXAMPLE_MAX_DISTANCE lapTicks
                               (stateOf
                                  (process EXAMPLE_PID_PROCESS_PERIOD
                                     EXAMPLE_MAX_DISTANCE (crossingTickAt 100)
                                     onStartLine)))))))
    by (vm_compute; tauto).
  split; [exact H1|]. split; [exact H3|].
  exact (lap_time_is_clock_difference EXAMPLE_PID_PROCESS_PERIOD
           EXAMPLE_MAX_DISTANCE (crossingTickAt 100) (crossingTickAt 140)
           lapTicks onStartLine 40 H1 H2 H3).
Defined.

Lemma alarm_means_lap_aborted_witness :
  In Sound_playAlarm
    (traceOf (process EXAMPLE_PID_PROCESS_PERIOD EXAMPLE_MAX_DISTANCE
                timeoutTick entered))
  /\ m_trackStatus
       (stateOf (process EXAMPLE_PID_PROCESS_PERIOD EXAMPLE_MAX_DISTANCE
                   timeoutTick entered))
     = TRACK_STATUS_FINISHED.
Proof.
  assert (H : In Sound_playAlarm
                (traceOf (process EXAMPLE_PID_PROCESS_PERIOD
                            EXAMPLE_MAX_DISTANCE timeoutTick entered)))
    by (vm_compute; tauto).
  split; [exact H|].
  exact (proj1 (alarm_means_lap_aborted EXAMPLE_PID_PROCESS_PERIOD
                  EXAMPLE_MAX_DISTANCE timeoutTick entered H)).
Defined.

Lemma steering_once_per_interval_witness :
  steeringCount
    (traceOf (process EXAMPLE_PID_PROCESS_PERIOD EXAMPLE_MAX_DISTANCE
                (lineTickAt 100) entered)) = 1%nat
  /\ m_pidProcessTime
       (stateOf (process EXAMPLE_PID_PROCESS_PERIOD EXAMPLE_MAX_DISTANCE
                   (lineTickAt 100) entered))
     = SimpleTimer.start EXAMPLE_PID_PROCESS_PERIOD 100.
Proof.
  assert (H : steeringCount
                (traceOf (process EXAMPLE_PID_PROCESS_PERIOD
                            EXAMPLE_MAX_DISTANCE (lineTickAt 100) entered))
              = 1%nat) by reflexivity.
  split; [exact H|].
  destruct (steering_once_per_interval EXAMPLE_PID_PROCESS_PERIOD
              EXAMPLE_MAX_DISTANCE (lineTickAt 100) entered) as (_ & A & _).
  exact (proj2 (proj2 (A H))).
Defined.

Lemma steering_is_rate_limited_witness :
  In (PidCtrl_calculate 2000 2000)
    (traceOf (process EXAMPLE_PID_PROCESS_PERIOD EXAMPLE_MAX_DISTANCE
                (lineTickAt 100) entered))
  /\ 0 <= millis (lineTickAt 105) - millis (lineTickAt 100)
       < EXAMPLE_PID_PROCESS_PERIOD
  /\ ~ In (PidCtrl_calculate 2000 2000)
         (traceOf
            (process EXAMPLE_PID_PROCESS_PERIOD EXAMPLE_MAX_DISTANCE
               (lineTickAt 105)
               (stateOf (process EXAMPLE_PID_PROCESS_PERIOD
                           EXAMPLE_MAX_DISTANCE (lineTickAt 100) entered)))).
Proof.
  assert (H1 : In (PidCtrl_calculate 2000 2000)
                 (traceOf (process EXAMPLE_PID_PROCESS_PERIOD
                             EXAMPLE_MAX_DISTANCE (lineTickAt 100) entered)))
    by (vm_compute; tauto).
  assert (H2 : 0 <= millis (lineTickAt 105) - millis (lineTickAt 100)
               < EXAMPLE_PID_PROCESS_PERIOD)
    by (unfold EXAMPLE_PID_PROCESS_PERIOD; simpl; lia).
  split; [exact H1|]. split; [exact H2|].
  exact (steering_is_rate_limited EXAMPLE_PID_PROCESS_PERIOD
           EXAMPLE_MAX_DISTANCE (lineTickAt 100) (lineTickAt 105) entered
           2000 2000 2000 2000 H1 H2).
Defined.

Lemma first_tick_after_entry_steers_witness :
  getSensorValues (lineSensors (lineTickAt 100)) = Some onLine
  /\ isTrackGapDetected (lineSensors (lineTickAt 100))
       (posMovAvg_getResult (lineTickAt 100)) = false
  /\ In (PidCtrl_calculate 2000 2000)
       (traceOf
          (process EXAMPLE_PID_PROCESS_PERIOD EXAMPLE_MAX_DISTANCE
             (lineTickAt 100)
             (stateOf (entry EXAMPLE_OBSERVATION_DURATION
                         EXAMPLE_PID_PROCESS_PERIOD (entryEnv 0 200 400)
                         onEndLine)))).
Proof.
  assert (H1 : getSensorValues (lineSensors (lineTickAt 100)) = Some onLine)
    by reflexivity.
  assert (H2 : isTrackGapDetected (lineSensors (lineTickAt 100))
                 (posMovAvg_getResult (lineTickAt 100)) = false)
    by reflexivity.
  split; [exact H1|]. split; [exact H2|].
  exact (first_tick_after_entry_steers EXAMPLE_OBSERVATION_DURATION
           EXAMPLE_PID_PROCESS_PERIOD EXAMPLE_MAX_DISTANCE
           (entryEnv 0 200 400) (lineTickAt 100) onLine onEndLine H1 H2).
Defined.

Lemma led_shows_lost_track_witness :
  ledShowsLost entered false
  /\ ledShowsLost
       (fst (run EXAMPLE_PID_PROCESS_PERIOD EXAMPLE_MAX_DISTANCE
               [backOnTrackTick; searchingTick] entered))
       (ledAfter false
          (concat (snd (run EXAMPLE_PID_PROCESS_PERIOD EXAMPLE_MAX_DISTANCE
                          [backOnTrackTick; searchingTick] entered)))).
Proof.
  assert (H : ledShowsLost entered false).
  { split; intros E; [discriminate E|reflexivity]. }
  split; [exact H|].
  exact (proj1 (led_shows_lost_track EXAMPLE_PID_PROCESS_PERIOD
                  EXAMPLE_MAX_DISTANCE)
           [backOnTrackTick; searchingTick] entered false H).
Defined.

Lemma tick_without_sensor_array_witness :
  m_trackStatus enteredLost <> TRACK_STATUS_FINISHED
  /\ getSensorValues (lineSensors (blindTickAt 100)) = None
  /\ SimpleTimer.isTimeout (m_observationTimer enteredLost)
       (millis (blindTickAt 100)) = false
  /\ process EXAMPLE_PID_PROCESS_PERIOD EXAMPLE_MAX_DISTANCE
       (blindTickAt 100) enteredLost
     = (tt, enteredLost, [PosMovAvg_write 2000]).
Proof.
  assert (H1 : m_trackStatus enteredLost <> TRACK_STATUS_FINISHED)
    by discriminate.
  assert (H2 : getSensorValues (lineSensors (blindTickAt 100)) = None)
    by reflexivity.
  assert (H3 : SimpleTimer.isTimeout (m_observationTimer enteredLost)
                 (millis (blindTickAt 100)) = false)
    by (vm_compute; reflexivity).
  split; [exact H1|]. split; [exact H2|]. split; [exact H3|].
  exact (proj1 (tick_without_sensor_array EXAMPLE_PID_PROCESS_PERIOD
                  EXAMPLE_MAX_DISTANCE (blindTickAt 100) enteredLost H1 H2)
           H3).
Defined.

Lemma gap_everywhere_below_two_sensors_witness :
  0 <= getNumLineSensors oneSensor <= 1
  /\ isTrackGapDetected oneSensor 500 = true.
Proof.
  assert (H : 0 <= getNumLineSensors oneSensor <= 1) by (simpl; lia).
  split; [exact H|].
  exact (gap_everywhere_below_two_sensors oneSensor 500 H).
Defined.

Lemma one_wheel_at_top_speed_witness :
  0 <= m_topSpeed entered
  /\ driveCommands (traceOf (adaptDriving timeoutTick 2000 entered))
     = [DiffDrive_setLinearSpeed 150 200]
  /\ Z.max 150 200 = m_topSpeed entered
  /\ Z.min 150 200
     = Z.max 0 (m_topSpeed entered
                - Z.abs (int16 (pidCtrl_calculate timeoutTick))).
Proof.
  assert (H1 : 0 <= m_topSpeed entered) by (simpl; lia).
  assert (H2 : is_int16 (m_topSpeed entered
                         - int16 (pidCtrl_calculate timeoutTick)))
    by (unfold is_int16; vm_compute; split; discriminate).
  assert (H3 : is_int16 (m_topSpeed entered
                         + int16 (pidCtrl_calculate timeoutTick)))
    by (unfold is_int16; vm_compute; split; discriminate).
  assert (H4 : driveCommands (traceOf (adaptDriving timeoutTick 2000 entered))
               = [DiffDrive_setLinearSpeed 150 200])
    by reflexivity.
  split; [exact H1|]. split; [exact H4|].
  exact (one_wheel_at_top_speed timeoutTick 2000 entered 150 200
           H1 H2 H3 H4).
Defined.

Lemma loop_call_order_witness :
  let tr := snd (App.loop 5 (App.exampleEnv 5 1)
                   (fst (App.setup 115200 5 100 (App.exampleEnv 0 1)
                           App.constructed))) in
  nth_error tr 2 = Some (App.DifferentialDrive_process 5)
  /\ nth_error tr 3 = Some App.Odometry_process.
Proof.
  intros tr.
  assert (H : nth_error tr 2 = Some (App.DifferentialDrive_process 5))
    by reflexivity.
  split; [exact H|].
  destruct (loop_call_order 5 (App.exampleEnv 5 1)
              (fst (App.setup 115200 5 100 (App.exampleEnv 0 1)
                      App.constructed))) as (_ & _ & A & _).
  exact (proj2 (proj2 (A 2%nat 5 H))).
Defined.

Lemma no_channel_no_telemetry_witness :
  App.createChannel (App.exampleEnv 0 0) = 0
  /\ SimpleTimer.isRunning (App.m_reportTimer App.constructed) = false
  /\ Forall (fun tr => filter App.is_sendData tr = [])
       (snd (App.loops 5 [App.exampleEnv 100 0; App.exampleEnv 200 0]
               (fst (App.setup 115200 5 100 (App.exampleEnv 0 0)
                       App.constructed)))).
Proof.
  assert (H1 : App.createChannel (App.exampleEnv 0 0) = 0) by reflexivity.
  assert (H2 : SimpleTimer.isRunning (App.m_reportTimer App.constructed)
               = false) by reflexivity.
  split; [exact H1|]. split; [exact H2|].
  exact (no_channel_no_telemetry 115200 5 100 (App.exampleEnv 0 0)
           App.constructed [App.exampleEnv 100 0; App.exampleEnv 200 0]
           H1 H2).
Defined.

Lemma drive_control_is_rate_limited_witness :
  0 <= App.millis (App.exampleEnv 3 1) - App.millis (App.exampleEnv 0 1) < 5
  /\ filter App.is_driveControl
       (snd (App.loop 5 (App.exampleEnv 3 1)
               (fst (App.setup 115200 5 100 (App.exampleEnv 0 1)
                       App.constructed)))) = [].
Proof.
  assert (H : 0 <= App.millis (App.exampleEnv 3 1)
                   - App.millis (App.exampleEnv 0 1) < 5)
    by (simpl; lia).
  split; [exact H|].
  exact (proj1 (proj1 drive_control_is_rate_limited 115200 5 100
                  (App.exampleEnv 0 1) (App.exampleEnv 3 1)
                  App.constructed H)).
Defined.

Lemma telemetry_sent_after_reporting_period_witness :
  0 < App.createChannel (App.exampleEnv 0 1) < 256
  /\ 0 <= 100
  /\ 100 <= App.millis (App.exampleEnv 100 1) - App.millis (App.exampleEnv 0 1)
       < 4294967296
  /\ filter App.is_sendData
       (snd (App.loop 5 (App.exampleEnv 100 1)
               (fst (App.setup 115200 5 100 (App.exampleEnv 0 1)
                       App.constructed))))
     = [App.SMPServer_sendData 1
          (App.mkVehicleData 100 200 1571 1500 1600 1550)].
Proof.
  assert (H1 : 0 < App.createChannel (App.exampleEnv 0 1) < 256)
    by (simpl; lia).
  assert (H2 : 0 <= 100) by lia.
  assert (H3 : 100 <= App.millis (App.exampleEnv 100 1)
                      - App.millis (App.exampleEnv 0 1) < 4294967296)
    by (simpl; lia).
  split; [exact H1|]. split; [exact H2|]. split; [exact H3|].
  exact (telemetry_sent_after_reporting_period 115200 5 100
           (App.exampleEnv 0 1) (App.exampleEnv 100 1) App.constructed
           H1 H2 H3).
Defined.

Lemma observation_deadline_ends_attempt_witness :
  0 <= EXAMPLE_OBSERVATION_DURATION
  /\ EXAMPLE_OBSERVATION_DURATION
     <= millis timeoutTick - millis (entryEnv 0 200 400) < 4294967296
  /\ m_trackStatus
       (stateOf
          (process EXAMPLE_PID_PROCESS_PERIOD EXAMPLE_MAX_DISTANCE timeoutTick
             (fst (run EXAMPLE_PID_PROCESS_PERIOD EXAMPLE_MAX_DISTANCE
                     lapTicks
                     (stateOf (entry EXAMPLE_OBSERVATION_DURATION
                                 EXAMPLE_PID_PROCESS_PERIOD
                                 (entryEnv 0 200 400) constructed))))))
     = TRACK_STATUS_FINISHED.
Proof.
  assert (H1 : 0 <= EXAMPLE_OBSERVATION_DURATION)
    by (unfold EXAMPLE_OBSERVATION_DURATION; lia).
  assert (H2 : EXAMPLE_OBSERVATION_DURATION
               <= millis timeoutTick - millis (entryEnv 0 200 400)
               < 4294967296)
    by (unfold EXAMPLE_OBSERVATION_DURATION; simpl; lia).
  split; [exact H1|]. split; [exact H2|].
  exact (observation_deadline_ends_attempt EXAMPLE_OBSERVATION_DURATION
           EXAMPLE_PID_PROCESS_PERIOD EXAMPLE_MAX_DISTANCE
           (entryEnv 0 200 400) timeoutTick lapTicks constructed H1 H2).
Defined.

Lemma entry_forgets_previous_attempt_witness :
  m_lapTime onEndLine = m_lapTime constructed
  /\ m_startEndLineDebounce onEndLine
     = m_startEndLineDebounce (set_startEndLineDebounce 2 constructed)
  /\ entry EXAMPLE_OBSERVATION_DURATION EXAMPLE_PID_PROCESS_PERIOD
       (entryEnv 0 200 400) onEndLine
     = entry EXAMPLE_OBSERVATION_DURATION EXAMPLE_PID_PROCESS_PERIOD
         (entryEnv 0 200 400) (set_startEndLineDebounce 2 constructed).
Proof.
  assert (H1 : m_lapTime onEndLine
               = m_lapTime (set_startEndLineDebounce 2 constructed))
    by reflexivity.
  assert (H2 : m_startEndLineDebounce onEndLine
               = m_startEndLineDebounce
                   (set_startEndLineDebounce 2 constructed))
    by reflexivity.
  split; [reflexivity|]. split; [exact H2|].
  exact (entry_forgets_previous_attempt EXAMPLE_OBSERVATION_DURATION
           EXAMPLE_PID_PROCESS_PERIOD (entryEnv 0 200 400) onEndLine
           (set_startEndLineDebounce 2 constructed) H1 H2).
Defined.
